(** * mach: command registration and dispatch (B2G)

    A shallow embedding of [python/mach/mach/base.py],
    [python/mach/mach/main.py] and [python/b2g/mach/commands/flash.py],
    followed by the properties of the dispatcher that the specification
    states.

    Python values are a small tagged union, dictionaries are [gmap]s keyed
    by strings, exceptions travel in an [outcome] together with the frames
    of their traceback, and the process-wide state ([sys.stdin] and friends,
    [os.environ], the module globals, the log) is threaded explicitly as a
    [World]. *)

From Stdlib Require Import ZArith String Ascii List Bool Lia.
From stdpp Require Import gmap strings list fin_maps sorting.

Open Scope string_scope.
Open Scope list_scope.
Open Scope Z_scope.

Set Warnings "-register-all".

(** ** Python values, exceptions and tracebacks *)

Module Py.

Inductive pyvalue : Type :=
| PyNone
| PyBool (b : bool)
| PyInt (n : Z)
| PyStr (s : string)
| PyTuple (items : list pyvalue)
| PyList (items : list pyvalue)
| PyClass (name : string)
| PyFunc (name : string)
| PyFile (path : string).

(** [bool(v)]: what [if not result] tests. *)
Definition truthy (v : pyvalue) : bool :=
  match v with
  | PyNone => false
  | PyBool b => b
  | PyInt n => negb (n =? 0)
  | PyStr s => negb (String.eqb s EmptyString)
  | PyTuple l | PyList l => match l with [] => false | _ => true end
  | PyClass _ | PyFunc _ | PyFile _ => true
  end.

(** [isinstance(v, int)]; [bool] is a subclass of [int]. *)
Definition isinstance_int (v : pyvalue) : bool :=
  match v with
  | PyInt _ | PyBool _ => true
  | _ => false
  end.

(** The exception classes the dispatcher can meet.  The first three
    derive from [BaseException] only, so [except Exception] lets them
    through. *)
Inductive exc_class : Type :=
| KeyboardInterrupt
| SystemExit
| GeneratorExit
| AssertionError
| IndexError
| TypeError
| AttributeError
| OSError
| Exception_ (name : string).

Definition is_Exception (c : exc_class) : bool :=
  match c with
  | KeyboardInterrupt | SystemExit | GeneratorExit => false
  | _ => true
  end.

Definition is_KeyboardInterrupt (c : exc_class) : bool :=
  match c with KeyboardInterrupt => true | _ => false end.

Record pyexc : Type := { exc_type : exc_class; exc_value : pyvalue }.

(** One entry of [traceback.extract_tb]: (filename, line number,
    function name, text).  [frame[0]] is [tb_file]. *)
Record frame : Type :=
  { tb_file : string; tb_line : Z; tb_name : string; tb_text : string }.

(** The result of running a piece of Python: a value, or an exception
    with the frames of its traceback, outermost first. *)
Inductive outcome (A : Type) : Type :=
| Returned (a : A)
| Raised (e : pyexc) (tb : list frame).
Arguments Returned {A} a.
Arguments Raised {A} e tb.

Definition raise {A} (c : exc_class) (msg : string) (tb : list frame)
  : outcome A :=
  Raised {| exc_type := c; exc_value := PyStr msg |} tb.

(** [sys.exit(code)] *)
Definition sys_exit {A} (code : Z) (tb : list frame) : outcome A :=
  Raised {| exc_type := SystemExit; exc_value := PyInt code |} tb.

(** *** Strings *)

Definition backslash : ascii := "\"%char.
Definition slash : ascii := "/"%char.
Definition dquote : ascii := "034"%char.
Definition squote : ascii := "'"%char.
Definition space : ascii := " "%char.
Definition tab : ascii := "009"%char.

(** [s.replace(a, b)] for one-character [a] and [b]. *)
Fixpoint replace (a b : ascii) (s : string) : string :=
  match s with
  | EmptyString => EmptyString
  | String c s' => String (if Ascii.eqb c a then b else c) (replace a b s')
  end.

Fixpoint contains (a : ascii) (s : string) : bool :=
  match s with
  | EmptyString => false
  | String c s' => Ascii.eqb c a || contains a s'
  end.

Definition lower_char (c : ascii) : ascii :=
  let n := nat_of_ascii c in
  if ((65 <=? n) && (n <=? 90))%nat then ascii_of_nat (n + 32) else c.

Fixpoint lower (s : string) : string :=
  match s with
  | EmptyString => EmptyString
  | String c s' => String (lower_char c) (lower s')
  end.

Definition startswith (s p : string) : bool := String.prefix p s.

Definition endswith (s p : string) : bool :=
  String.prefix (String.rev p) (String.rev s).

(** [sep.join(parts)] *)
Fixpoint join (sep : string) (parts : list string) : string :=
  match parts with
  | [] => EmptyString
  | [p] => p
  | p :: ps => p +:+ sep +:+ join sep ps
  end.

(** [c.isspace()] for a character of a text string.  The characters of a
    [string] stand for the code points below 256; the white space among
    them is 9 to 13, 28 to 32, 133 and 160. *)
Definition isspace (c : ascii) : bool :=
  let n := nat_of_ascii c in
  ((9 <=? n) && (n <=? 13) || (28 <=? n) && (n <=? 32) ||
   (n =? 133) || (n =? 160))%nat.

Fixpoint lstrip (s : string) : string :=
  match s with
  | String c s' => if isspace c then lstrip s' else s
  | EmptyString => EmptyString
  end.

Definition strip (s : string) : string :=
  String.rev (lstrip (String.rev (lstrip s))).

Fixpoint repeat_char (c : ascii) (n : nat) : string :=
  match n with O => EmptyString | S n' => String c (repeat_char c n') end.

(** [repr] of a plain string without quotes or escapes in it. *)
Definition repr (s : string) : string :=
  String squote s +:+ String squote EmptyString.

(** [os.path.join(a, b)] on a POSIX host, for one trailing component. *)
Definition path_join (a b : string) : string :=
  if startswith b "/" then b
  else if String.eqb a EmptyString || endswith a "/" then a +:+ b
  else a +:+ "/" +:+ b.

(** [subprocess.list2cmdline]: the inner loop over the characters of one
    argument.  [bs] is the number of buffered backslashes. *)
Fixpoint quote_chars (s : string) (bs : nat) (needquote : bool) : string :=
  match s with
  | EmptyString =>
      (* remaining backslashes, doubled when a closing quote follows *)
      repeat_char backslash bs +:+
      (if needquote
       then repeat_char backslash bs +:+ String dquote EmptyString
       else EmptyString)
  | String c s' =>
      if Ascii.eqb c backslash then quote_chars s' (S bs) needquote
      else if Ascii.eqb c dquote then
        repeat_char backslash (bs * 2) +:+
        String backslash (String dquote (quote_chars s' O needquote))
      else
        repeat_char backslash bs +:+ String c (quote_chars s' O needquote)
  end.

Definition quote_arg (arg : string) : string :=
  let needquote :=
    contains space arg || contains tab arg || String.eqb arg EmptyString in
  (if needquote then String dquote EmptyString else EmptyString) +:+
  quote_chars arg O needquote.

Definition list2cmdline (seq : list string) : string :=
  join " " (map quote_arg seq).

End Py.
Export Py.


(** ** The process-wide state *)

Module Sys.

(** A stream object as the caller hands it over.  [s_encoding] is the
    [encoding] attribute: absent, [None], or the name of an encoding. *)
Record stream_obj : Type :=
  { s_id : nat; s_encoding : option (option string) }.

(** What [sys.stdin], [sys.stdout] and [sys.stderr] can reference: the
    object itself or a [codecs] wrapper around it. *)
Inductive sys_stream : Type :=
| Plain (s : stream_obj)
| Utf8Reader (inner : sys_stream)
| Utf8Writer (inner : sys_stream).

(** [stream.encoding]; the [codecs] wrappers pass attribute lookups on to
    the stream they wrap. *)
Fixpoint encoding (s : sys_stream) : option (option string) :=
  match s with
  | Plain o => s_encoding o
  | Utf8Reader inner | Utf8Writer inner => encoding inner
  end.

Inductive log_params : Type :=
| ParamArgs (args : list string)
| ParamEnv (env : gmap string string)
| ParamLine (line : string).

(** One call of [logger.log(level, format_str, extra={action, params})]. *)
Record log_record : Type :=
  { lr_level : Z; lr_action : string; lr_params : log_params;
    lr_format : string }.

(** One registration: [(cls, method, parser_args, arguments)], where
    [parser_args] and every argument are an [(args, kwargs)] pair. *)
Definition decl : Type := list string * gmap string pyvalue.

Record handler_entry : Type :=
  { he_cls : string; he_method : string; he_parser_args : decl;
    he_arguments : list decl }.

Inductive out_event : Type :=
| Wrote (to : sys_stream) (text : string).

Record World : Type :=
  { sys_stdin : sys_stream;
    sys_stdout : sys_stream;
    sys_stderr : sys_stream;
    environ : gmap string string;
    MODULES_SCANNED : bool;
    class_handlers : list handler_entry;
    json_handlers : list pyvalue;
    terminal_logging : option (Z * pyvalue);
    log : list log_record;
    console : list out_event }.

Definition set_stdin (s : sys_stream) (w : World) : World :=
  {| sys_stdin := s; sys_stdout := sys_stdout w; sys_stderr := sys_stderr w;
     environ := environ w; MODULES_SCANNED := MODULES_SCANNED w;
     class_handlers := class_handlers w; json_handlers := json_handlers w;
     terminal_logging := terminal_logging w; log := log w;
     console := console w |}.

Definition set_stdout (s : sys_stream) (w : World) : World :=
  {| sys_stdin := sys_stdin w; sys_stdout := s; sys_stderr := sys_stderr w;
     environ := environ w; MODULES_SCANNED := MODULES_SCANNED w;
     class_handlers := class_handlers w; json_handlers := json_handlers w;
     terminal_logging := terminal_logging w; log := log w;
     console := console w |}.

Definition set_stderr (s : sys_stream) (w : World) : World :=
  {| sys_stdin := sys_stdin w; sys_stdout := sys_stdout w; sys_stderr := s;
     environ := environ w; MODULES_SCANNED := MODULES_SCANNED w;
     class_handlers := class_handlers w; json_handlers := json_handlers w;
     terminal_logging := terminal_logging w; log := log w;
     console := console w |}.

Definition set_MODULES_SCANNED (b : bool) (w : World) : World :=
  {| sys_stdin := sys_stdin w; sys_stdout := sys_stdout w;
     sys_stderr := sys_stderr w;
     environ := environ w; MODULES_SCANNED := b;
     class_handlers := class_handlers w; json_handlers := json_handlers w;
     terminal_logging := terminal_logging w; log := log w;
     console := console w |}.

Definition set_class_handlers (l : list handler_entry) (w : World) : World :=
  {| sys_stdin := sys_stdin w; sys_stdout := sys_stdout w;
     sys_stderr := sys_stderr w;
     environ := environ w; MODULES_SCANNED := MODULES_SCANNED w;
     class_handlers := l; json_handlers := json_handlers w;
     terminal_logging := terminal_logging w; log := log w;
     console := console w |}.

Definition add_json_handler (f : pyvalue) (w : World) : World :=
  {| sys_stdin := sys_stdin w; sys_stdout := sys_stdout w;
     sys_stderr := sys_stderr w;
     environ := environ w; MODULES_SCANNED := MODULES_SCANNED w;
     class_handlers := class_handlers w;
     json_handlers := json_handlers w ++ [f];
     terminal_logging := terminal_logging w; log := log w;
     console := console w |}.

Definition add_terminal_logging (level : Z) (write_interval : pyvalue)
    (w : World) : World :=
  {| sys_stdin := sys_stdin w; sys_stdout := sys_stdout w;
     sys_stderr := sys_stderr w;
     environ := environ w; MODULES_SCANNED := MODULES_SCANNED w;
     class_handlers := class_handlers w; json_handlers := json_handlers w;
     terminal_logging := Some (level, write_interval); log := log w;
     console := console w |}.

Definition add_log (r : log_record) (w : World) : World :=
  {| sys_stdin := sys_stdin w; sys_stdout := sys_stdout w;
     sys_stderr := sys_stderr w;
     environ := environ w; MODULES_SCANNED := MODULES_SCANNED w;
     class_handlers := class_handlers w; json_handlers := json_handlers w;
     terminal_logging := terminal_logging w; log := log w ++ [r];
     console := console w |}.

(** [fh.write(text)] *)
Definition write (fh : sys_stream) (text : string) (w : World) : World :=
  {| sys_stdin := sys_stdin w; sys_stdout := sys_stdout w;
     sys_stderr := sys_stderr w;
     environ := environ w; MODULES_SCANNED := MODULES_SCANNED w;
     class_handlers := class_handlers w; json_handlers := json_handlers w;
     terminal_logging := terminal_logging w; log := log w;
     console := console w ++ [Wrote fh text] |}.

(** [print(text)] writes to whatever [sys.stdout] is at that moment. *)
Definition print (text : string) (w : World) : World :=
  write (sys_stdout w) (text +:+ String "010"%char EmptyString) w.

Definition INFO : Z := 20.
Definition DEBUG : Z := 10.

(** Code that reads and changes the world and returns or raises. *)
Definition M (A : Type) : Type := World -> World * outcome A.

Definition ret {A} (a : A) : M A := fun w => (w, Returned a).

Definition fail {A} (c : exc_class) (msg : string) (tb : list frame)
  : M A := fun w => (w, raise c msg tb).

Definition bind {A B} (m : M A) (k : A -> M B) : M B :=
  fun w =>
    match m w with
    | (w', Returned a) => k a w'
    | (w', Raised e tb) => (w', Raised e tb)
    end.

(** A statement that only changes the world. *)
Definition exec (f : World -> World) : M unit := fun w => (f w, Returned tt).

(** The value of a pure expression that may raise. *)
Definition eval {A} (o : outcome A) : M A := fun w => (w, o).

End Sys.
Export Sys.

Notation "x <- m ;; k" := (bind m (fun x => k))
  (at level 100, m at next level, right associativity).
Notation "m ;;; k" := (bind m (fun _ => k))
  (at level 100, right associativity).

(** ** mach/registrar.py: the registry *)

Module Registrar.

(** Modelled from the spec: [register_method_handler] of
    [mach/registrar.py], which is not among the sources.  The spec's
    Registry contract (4.1) has [register] append a descriptor made of
    the target class, the method name, the parser arguments and the
    argument specs, and has the descriptors come back in registration
    order. *)
Definition register_method_handler (cls method : string)
    (parser_args : decl) (arguments : list decl) (w : World) : World :=
  set_class_handlers
    (class_handlers w ++
     [{| he_cls := cls; he_method := method;
         he_parser_args := parser_args; he_arguments := arguments |}]) w.

End Registrar.

(** ** mach/base.py *)

Module Base.

Definition base_py : string := "mach/base.py".

Definition at_line (file : string) (line : Z) (name : string) : frame :=
  {| tb_file := file; tb_line := line; tb_name := name;
     tb_text := EmptyString |}.

(** An exception that crosses a call made at [f] gains [f] at the outer
    end of its traceback. *)
Definition called_at {A} (f : frame) (o : outcome A) : outcome A :=
  match o with
  | Returned a => Returned a
  | Raised e tb => Raised e (f :: tb)
  end.

(** The module globals that the import computes from [os.environ]
    (lines 21-36). *)
Record globals : Type := { _current_shell : string; _in_msys : bool }.

Definition detect_shell (env : gmap string string) : option string :=
  match env !! "SHELL" with
  | Some s => Some s
  | None =>
      match env !! "MOZILLABUILD" with
      | Some m => Some (m +:+ "/msys/bin/sh.exe")
      | None => env !! "COMSPEC"
      end
  end.

Definition module_init (env : gmap string string) : outcome globals :=
  match detect_shell env with
  | None =>
      raise (Exception_ "Exception") "Could not detect environment shell!"
        [at_line base_py 28 "<module>"]
  | Some sh =>
      if decide (env !! "MSYSTEM" = Some "MINGW32") then
        Returned
          {| _current_shell :=
               if endswith (lower sh) ".exe" then sh else sh +:+ ".exe";
             _in_msys := true |}
      else Returned {| _current_shell := sh; _in_msys := false |}
  end.

(** *** The decorators *)

(** A function object with the two attributes the decorators store. *)
Record function : Type :=
  { fn_name : string;
    _mach_command : option decl;
    _mach_command_args : option (list decl) }.

Definition def (name : string) : function :=
  {| fn_name := name; _mach_command := None; _mach_command_args := None |}.

(** [Command.__call__] *)
Definition Command (_command_args : decl) (func : function) : function :=
  {| fn_name := fn_name func;
     _mach_command := Some _command_args;
     _mach_command_args := _mach_command_args func |}.

(** [CommandArgument.__call__] *)
Definition CommandArgument (_command_args : decl) (func : function)
  : function :=
  let command_args := default [] (_mach_command_args func) in
  let command_args := command_args ++ [_command_args] in
  {| fn_name := fn_name func;
     _mach_command := _mach_command func;
     _mach_command_args := Some command_args |}.

(** Decorators written above a [def], in source order: Python applies
    the one nearest the function first. *)
Definition decorated (decorators : list (function -> function))
    (func : function) : function :=
  fold_right (fun d f => d f) func decorators.

Inductive class_attr : Type :=
| AttrFunction (f : function)
| AttrOther (v : pyvalue).

Record pyclass : Type :=
  { cls_name : string; cls_dict : gmap string class_attr }.

(** The body of the loop of [CommandProvider] for one attribute. *)
Definition provide_attr (cls : pyclass) (attr : string) (w : World)
  : World :=
  match cls_dict cls !! attr with
  | Some (AttrFunction value) =>
      match _mach_command value with
      | None => w
      | Some parser_args =>
          let arguments := _mach_command_args value in
          Registrar.register_method_handler (cls_name cls) attr
            (fst parser_args, snd parser_args) (default [] arguments) w
      end
  | _ => w
  end.

(** [sorted(cls.__dict__.keys())] *)
Definition sorted_keys (cls : pyclass) : list string :=
  merge_sort String.le (map fst (map_to_list (cls_dict cls))).

Definition CommandProvider (cls : pyclass) (w : World) : World :=
  fold_left (fun w attr => provide_attr cls attr w) (sorted_keys cls) w.

(** *** BaseMixin *)

(** The keyword arguments of [_run_command], with their defaults. *)
Record run_options : Type :=
  { cwd : option string;
    append_env : option (gmap string string);
    explicit_env : option (gmap string string);
    log_name : option string;
    log_level : Z;
    line_handler : option (string -> World -> World * outcome unit);
    require_unix_environment : bool;
    ignore_errors : bool;
    ignore_children : bool }.

Definition defaults : run_options :=
  {| cwd := None; append_env := None; explicit_env := None;
     log_name := None; log_level := INFO; line_handler := None;
     require_unix_environment := false; ignore_errors := false;
     ignore_children := false |}.

Definition dict_truthy {A} (d : option (gmap string A)) : bool :=
  match d with
  | Some m => negb (bool_decide (m = ∅))
  | None => false
  end.

Definition str_truthy (s : option string) : bool :=
  match s with
  | Some s => negb (String.eqb s EmptyString)
  | None => false
  end.

(** [BaseMixin.log] *)
Definition log_event (level : Z) (action : string) (params : log_params)
    (format_str : string) (w : World) : World :=
  add_log {| lr_level := level; lr_action := action; lr_params := params;
             lr_format := format_str |} w.

Definition repr_list (args : list string) : string :=
  "[" +:+ join ", " (map repr args) +:+ "]".

Section BaseMixin.

Variable g : globals.

(** The collaborator [mozprocess.ProcessHandlerMixin]: constructed with
    the argument vector, the working directory, the environment, the
    line callback and [ignore_children]; then [run()],
    [processOutput()] and [wait()], which yields the exit status. *)
Variable ProcessHandlerMixin :
  list string -> option string -> gmap string string ->
  (string -> World -> World * outcome unit) -> bool ->
  World -> World * outcome Z.

Definition _normalize_command (args : list string)
    (require_unix_environment : bool) : outcome (list string) :=
  match args with
  | [] =>
      raise AssertionError EmptyString
        [at_line base_py 208 "_normalize_command"]
  | arg0 :: rest =>
      if negb require_unix_environment || negb (_in_msys g) then
        Returned args
      else
        let prog := replace backslash slash arg0 in
        let cline := list2cmdline ([prog] ++ rest) in
        Returned [_current_shell g; "-c"; cline]
  end.

(** The closure [handleLine] of [_run_command].  Lines are text here,
    as they are after the decoding, which has no counterpart. *)
Definition handleLine (o : run_options) (line : string) (w : World)
  : World * outcome unit :=
  let '(w, r) :=
    match line_handler o with
    | Some h =>
        let '(w', r) := h line w in
        (w', called_at (at_line base_py 169 "handleLine") r)
    | None => (w, Returned tt)
    end in
  match r with
  | Raised e tb => (w, Raised e tb)
  | Returned _ =>
      if negb (str_truthy (log_name o)) then (w, Returned tt)
      else
        (log_event (log_level o) (default EmptyString (log_name o))
           (ParamLine (strip line)) "{line}" w, Returned tt)
  end.

Definition use_env (o : run_options) (w : World) : gmap string string :=
  if dict_truthy (explicit_env o) then default ∅ (explicit_env o)
  else
    let env := environ w in
    if dict_truthy (append_env o) then default ∅ (append_env o) ∪ env
    else env.

(** The world in which the process starts: the two records that
    [_run_command] logs first are in it. *)
Definition before_process (args : list string) (o : run_options)
    (w : World) : World :=
  let w := log_event INFO "process" (ParamArgs args) (join " " args) w in
  log_event DEBUG "process" (ParamEnv (use_env o w))
    "Environment: {env}" w.

Definition _run_command (args : list string) (o : run_options)
    (w : World) : World * outcome Z :=
  match _normalize_command args (require_unix_environment o) with
  | Raised e tb =>
      (w, Raised e (at_line base_py 158 "_run_command" :: tb))
  | Returned args =>
      let w := log_event INFO "process" (ParamArgs args)
                 (join " " args) w in
      let env := use_env o w in
      let w := log_event DEBUG "process" (ParamEnv env)
                 "Environment: {env}" w in
      let '(w, status) :=
        ProcessHandlerMixin args (cwd o) env (handleLine o)
          (ignore_children o) w in
      match status with
      | Raised e tb =>
          (w, Raised e (at_line base_py 190 "_run_command" :: tb))
      | Returned status =>
          if negb (status =? 0) && negb (ignore_errors o) then
            (w, raise (Exception_ "Exception")
                  ("Process executed with non-0 exit code: " +:+
                   repr_list args)
                  [at_line base_py 195 "_run_command"])
          else (w, Returned status)
      end
  end.

End BaseMixin.

End Base.

(** ** The part of [argparse] that the dispatcher's grammar uses

    [argparse] belongs to Python's standard library.  This is a model of it
    for grammars of the shape [get_argument_parser] builds: optional
    arguments given by one of their exact option strings, with the actions
    [store] (value in the next token), [store_true] and [help];
    positional arguments that take one token each, possibly restricted to
    [choices]; and one level of sub-commands that take every token after
    the command name.  Tokens are told apart as [_parse_optional] does it.
    Abbreviated options, [--opt=value], short options with the value
    attached and [--] are left out. *)

Module Argparse.

Definition namespace : Type := gmap string pyvalue.

Inductive action : Type := Store | StoreTrue | HelpAction.

Record argument : Type :=
  { option_strings : list string;   (* empty for a positional *)
    dest : string;
    act : action;
    choices : option (list string);
    default_value : pyvalue;
    opens_file : bool }.             (* [type=argparse.FileType(...)] *)

Definition is_optional (a : argument) : bool :=
  match option_strings a with [] => false | _ => true end.

(** A string that starts with the prefix character and is more than the
    prefix character. *)
Definition looks_like_option (t : string) : bool :=
  startswith t "-" && (1 <? String.length t)%nat.

Definition is_digit (c : ascii) : bool :=
  let n := nat_of_ascii c in ((48 <=? n) && (n <=? 57))%nat.

Fixpoint all_digits (s : string) : bool :=
  match s with
  | EmptyString => true
  | String c s' => is_digit c && all_digits s'
  end.

(** One digit or more. *)
Definition digits (s : string) : bool :=
  negb (String.eqb s EmptyString) && all_digits s.

(** Digits if any, a dot, and one digit or more. *)
Fixpoint fraction (s : string) : bool :=
  match s with
  | EmptyString => false
  | String c s' =>
      if Ascii.eqb c "."%char then digits s' else is_digit c && fraction s'
  end.

(** The end of a pattern is also found before a newline that ends the
    string. *)
Definition chomp (s : string) : string :=
  if endswith s (String "010"%char EmptyString)
  then String.substring 0 (String.length s - 1) s
  else s.

(** [_negative_number_matcher]: a dash and then digits, or digits if
    any, a dot and digits. *)
Definition is_negative_number (t : string) : bool :=
  match t with
  | String c body =>
      Ascii.eqb c "-"%char && (digits (chomp body) || fraction (chomp body))
  | EmptyString => false
  end.

(** The part of [t] before its first [=]. *)
Fixpoint before_equals (t : string) : string :=
  match t with
  | EmptyString => EmptyString
  | String c t' =>
      if Ascii.eqb c "="%char then EmptyString
      else String c (before_equals t')
  end.

(** [t] is not the option string [o] but stands for it: [o] with a value
    after [=], a long [o] cut short, or a short [o] with more attached. *)
Definition stands_for (t o : string) : bool :=
  contains "="%char t && String.eqb o (before_equals t) ||
  (if startswith t "--" then startswith o (before_equals t)
   else String.eqb o (String.substring 0 2 t) || startswith o t).

Fixpoint lstrip_dash (s : string) : string :=
  match s with
  | String c s' => if Ascii.eqb c "-"%char then lstrip_dash s' else s
  | EmptyString => EmptyString
  end.

(** The destination of an argument declared with [flags] and no
    [dest]: the first long option string, else the first one, without
    its dashes and with [-] turned into [_]; a positional keeps its
    name. *)
Definition infer_dest (flags : list string) : string :=
  match flags with
  | [] => EmptyString
  | f :: _ =>
      if looks_like_option f then
        let long := filter (fun s => Is_true (startswith s "--")) flags in
        replace "-"%char "_"%char (lstrip_dash (List.hd f long))
      else f
  end.

Definition strings_of (v : pyvalue) : option (list string) :=
  match v with
  | PyTuple l | PyList l =>
      Some (omap (fun x => match x with PyStr s => Some s | _ => None end) l)
  | _ => None
  end.

(** [parser.add_argument] on the pair of a declaration *)
Definition add_argument (d : decl) : argument :=
  let '(flags, kwargs) := d in
  let act :=
    match kwargs !! "action" with
    | Some (PyStr "store_true") => StoreTrue
    | Some (PyStr "help") => HelpAction
    | _ => Store
    end in
  {| option_strings :=
       match flags with
       | f :: _ => if looks_like_option f then flags else []
       | [] => []
       end;
     dest := match kwargs !! "dest" with
             | Some (PyStr s) => s
             | _ => infer_dest flags
             end;
     act := act;
     choices := kwargs !! "choices" ≫= strings_of;
     default_value :=
       match kwargs !! "default" with
       | Some v => v
       | None => match act with StoreTrue => PyBool false | _ => PyNone end
       end;
     opens_file := false |}.

(** A parser made by [add_parser] on the sub-parsers action. *)
Record subparser : Type :=
  { sp_name : string;
    sp_kwargs : gmap string pyvalue;
    sp_arguments : list argument;
    sp_defaults : gmap string pyvalue }.

Record parser : Type :=
  { p_usage : string;
    p_arguments : list argument;
    p_dest : string;               (* [add_subparsers(dest=...)] *)
    p_defaults : gmap string pyvalue;
    p_commands : list subparser }.

Definition set_usage (u : string) (p : parser) : parser :=
  {| p_usage := u; p_arguments := p_arguments p; p_dest := p_dest p;
     p_defaults := p_defaults p; p_commands := p_commands p |}.

Definition add_command (sp : subparser) (p : parser) : parser :=
  {| p_usage := p_usage p; p_arguments := p_arguments p;
     p_dest := p_dest p; p_defaults := p_defaults p;
     p_commands := p_commands p ++ [sp] |}.

Definition argument_name (a : argument) : string :=
  match option_strings a with
  | [] => dest a
  | l => join "/" l
  end.

Inductive parse_result : Type :=
| Parsed (ns : namespace) (extras : list string)
| ParseError (message : string)
| HelpRequested.

Definition invalid_choice (a_name value : string) (among : list string)
  : string :=
  "argument " +:+ a_name +:+ ": invalid choice: " +:+ repr value +:+
  " (choose from " +:+ join ", " (map repr among) +:+ ")".

(** Convert and check one value for [a], then store it. *)
Definition store_value (a : argument) (value : string) (ns : namespace)
  : namespace + string :=
  match choices a with
  | Some among =>
      if bool_decide (value ∈ among)
      then inl (<[dest a := PyStr value]> ns)
      else inr (invalid_choice (argument_name a) value among)
  | None =>
      inl (<[dest a := if opens_file a then PyFile value else PyStr value]>
             ns)
  end.

Definition find_option (opts : list argument) (t : string)
  : option argument :=
  List.find (fun a => bool_decide (t ∈ option_strings a)) opts.

Definition has_negative_number_optionals (opts : list argument) : bool :=
  existsb (fun a => existsb is_negative_number (option_strings a)) opts.

(** [_parse_optional]: whether the parser with the optional arguments
    [opts] takes the token [t] for an option string.  It does so for its
    own option strings.  Of the other strings of more than one character
    that start with a dash, it takes for values those that look like a
    negative number, as long as none of its option strings does, and
    those with a blank in them.  A token that stands for an option
    string without being one is met like one the parser does not know:
    what [argparse] does with it is left out. *)
Definition optional_token (opts : list argument) (t : string) : bool :=
  startswith t "-" &&
  (match find_option opts t with Some _ => true | None => false end ||
   (1 <? String.length t)%nat &&
   (existsb (fun a => existsb (stands_for t) (option_strings a)) opts ||
    negb (is_negative_number t && negb (has_negative_number_optionals opts))
    && negb (contains space t))).

Definition expected_one (a : argument) : string :=
  "argument " +:+ argument_name a +:+ ": expected one argument".

(** The tokens of one sub-command, left to right. *)
Fixpoint consume (opts positionals : list argument) (tokens : list string)
    (ns : namespace) (extras : list string) : parse_result :=
  match tokens with
  | [] =>
      match positionals with
      | [] => Parsed ns extras
      | _ => ParseError "too few arguments"
      end
  | t :: rest =>
      if optional_token opts t then
        match find_option opts t with
        | None => consume opts positionals rest ns (extras ++ [t])
        | Some a =>
            match act a with
            | HelpAction => HelpRequested
            | StoreTrue =>
                consume opts positionals rest
                  (<[dest a := PyBool true]> ns) extras
            | Store =>
                match rest with
                | v :: rest' =>
                    if optional_token opts v then ParseError (expected_one a)
                    else
                      match store_value a v ns with
                      | inl ns' => consume opts positionals rest' ns' extras
                      | inr msg => ParseError msg
                      end
                | [] => ParseError (expected_one a)
                end
            end
        end
      else
        match positionals with
        | [] => consume opts positionals rest ns (extras ++ [t])
        | p :: ps =>
            match store_value p t ns with
            | inl ns' => consume opts ps rest ns' extras
            | inr msg => ParseError msg
            end
        end
  end.

(** Defaults go only where the namespace has nothing yet: first those of
    the arguments, then those of [set_defaults]. *)
Definition with_defaults (args : list argument)
    (defaults : gmap string pyvalue) (ns : namespace) : namespace :=
  let ns :=
    fold_left
      (fun ns a =>
         match act a, ns !! dest a with
         | HelpAction, _ => ns
         | _, Some _ => ns
         | _, None => <[dest a := default_value a]> ns
         end) args ns in
  ns ∪ defaults.

Definition help_argument : argument :=
  {| option_strings := ["-h"; "--help"]; dest := "help";
     act := HelpAction; choices := None; default_value := PyNone;
     opens_file := false |}.

(** [parser.parse_known_args] of a sub-command's parser, on the
    namespace of the parent. *)
Definition parse_command (sp : subparser) (tokens : list string)
    (ns : namespace) : parse_result :=
  let args := help_argument :: sp_arguments sp in
  consume (filter (fun a => Is_true (is_optional a)) args)
          (filter (fun a => Is_true (negb (is_optional a))) args)
          tokens (with_defaults args (sp_defaults sp) ns) [].

Definition find_command (p : parser) (name : string) : option subparser :=
  List.find (fun sp => String.eqb (sp_name sp) name) (p_commands p).

(** Who reports the outcome: the top-level parser or the parser of a
    sub-command. *)
Inductive reporter : Type := TopLevel | OfCommand (sp : subparser).

(** The tokens of the top-level parser: global options, then the
    command, which takes everything after it. *)
Fixpoint consume_top (p : parser) (tokens : list string) (ns : namespace)
    (extras : list string) : reporter * parse_result :=
  match tokens with
  | [] => (TopLevel, ParseError "too few arguments")
  | t :: rest =>
      if optional_token (p_arguments p) t then
        match find_option (p_arguments p) t with
        | None => consume_top p rest ns (extras ++ [t])
        | Some a =>
            match act a with
            | HelpAction => (TopLevel, HelpRequested)
            | StoreTrue =>
                consume_top p rest (<[dest a := PyBool true]> ns) extras
            | Store =>
                match rest with
                | v :: rest' =>
                    if optional_token (p_arguments p) v
                    then (TopLevel, ParseError (expected_one a))
                    else
                      match store_value a v ns with
                      | inl ns' => consume_top p rest' ns' extras
                      | inr msg => (TopLevel, ParseError msg)
                      end
                | [] => (TopLevel, ParseError (expected_one a))
                end
            end
        end
      else
        match find_command p t with
        | None =>
            (TopLevel,
             ParseError (invalid_choice (p_dest p) t
                           (map sp_name (p_commands p))))
        | Some sp =>
            match parse_command sp rest (<[p_dest p := PyStr t]> ns) with
            | Parsed ns' more => (TopLevel, Parsed ns' (extras ++ more))
            | r => (OfCommand sp, r)
            end
        end
  end.

Definition unrecognized (extras : list string) : string :=
  "unrecognized arguments: " +:+ join " " extras.

Section ParseArgs.

(** The methods a subclass can override. *)
Variable error : reporter -> string -> World -> World * outcome namespace.
Variable print_help : reporter -> World -> World * outcome unit.

(** [parser.parse_args(argv)] *)
Definition parse_args (p : parser) (argv : list string) (w : World)
  : World * outcome namespace :=
  match consume_top p argv
          (with_defaults (p_arguments p) (p_defaults p) ∅) [] with
  | (_, Parsed ns []) => (w, Returned ns)
  | (_, Parsed ns extras) => error TopLevel (unrecognized extras) w
  | (who, ParseError msg) => error who msg w
  | (who, HelpRequested) =>
      let '(w, r) := print_help who w in
      match r with
      | Raised e tb => (w, Raised e tb)
      | Returned _ =>
          (w, sys_exit 0 [Base.at_line "argparse.py" 0 "exit"])
      end
  end.

End ParseArgs.

(** [argparse.ArgumentParser.error]: usage and the message on
    [sys.stderr], exit status 2. *)
Definition ArgumentParser_error {A} (usage prog message : string)
    (w : World) : World * outcome A :=
  let w := write (sys_stderr w) usage w in
  let w := write (sys_stderr w)
             (prog +:+ ": error: " +:+ message +:+
              String "010"%char EmptyString) w in
  (w, sys_exit 2 [Base.at_line "argparse.py" 0 "error";
                  Base.at_line "argparse.py" 0 "exit"]).

End Argparse.

(** ** mach/registrar.py: the parser builder *)

Module ParserBuilder.
Import Argparse.

(** Modelled from the spec: the order in which a command's argument
    specs reach the parser.  [populate_argument_parser] of
    [mach/registrar.py] is not among the sources.  The spec has the
    specs of a command stored nearest-to-the-function first and
    reversed to declaration order (3), read back in reverse of the order
    in which they were attached (4.3, 9). *)
Definition resolved_arguments (he : handler_entry) : list decl :=
  rev (he_arguments he).

(** Modelled from the spec: [populate_argument_parser] of
    [mach/registrar.py], which is not among the sources.  For every
    descriptor, in registration order, one sub-grammar named by the
    parser arguments, carrying the argument specs in their resolved order
    (4.4) and the routing keys [cls] and [method] as defaults. *)
Definition command_parser (he : handler_entry) : subparser :=
  {| sp_name := List.hd EmptyString (fst (he_parser_args he));
     sp_kwargs := snd (he_parser_args he);
     sp_arguments := map add_argument (resolved_arguments he);
     sp_defaults :=
       {[ "cls" := PyClass (he_cls he); "method" := PyStr (he_method he) ]}
  |}.

Definition populate_argument_parser (w : World) (p : parser) : parser :=
  fold_left (fun p he => add_command (command_parser he) p)
            (class_handlers w) p.

(** The destinations of a command's arguments, in the order the built
    parser presents them. *)
Definition argument_order (sp : subparser) : list string :=
  map dest (sp_arguments sp).

End ParserBuilder.

(** ** mach/main.py *)

Module Main.
Import Argparse.

Definition main_py : string := "mach/main.py".

Definition CONSUMED_ARGUMENTS : list string :=
  [ "settings_file";
    "verbose";
    "logfile";
    "log_interval";
    "command";
    "cls";
    "method";
    "func" ].

Definition MACH_ERROR : string :=
"The error occurred in mach itself. This is likely a bug in mach itself or a
fundamental problem with a loaded module.

Please consider filing a bug against mach by going to the URL:

    https://bugzilla.mozilla.org/enter_bug.cgi?product=Core&component=mach

".

Definition ERROR_FOOTER : string :=
"If filing a bug, please include the full output of mach, including this error
message.

The details of the failure are as follows:
".

Definition COMMAND_ERROR : string :=
"The error occurred in the implementation of the invoked mach command.

This should never occur and is likely a bug in the implementation of that
command. Consider filing a bug for this issue.
".

Definition MODULE_ERROR : string :=
"The error occured in code that was called by the mach command. This is either
a bug in the called code itself or in the way that mach is calling it.

You should consider filing a bug for this issue.
".

Definition USAGE : string :=
"%(prog)s [global arguments] command [command arguments]

mach (German for " +:+ String dquote "do" +:+ String dquote ") is the main interface to the Mozilla build system and
common developer tasks.

You tell mach the command you want to perform and it does it for you.

Some common commands are:

    %(prog)s build     Build B2G.
    %(prog)s help      Show full help, including the list of all commands.

To see more help for a specific command, run:

  %(prog)s <command> --help
".

Definition newline : string := String "010"%char EmptyString.

(** A handler as the dispatcher calls it, on the keyword arguments. *)
Definition handler : Type := namespace -> M pyvalue.

(** What the parsed namespace routes to. *)
Inductive target : Type :=
| Method (cls method : string)
| Function (func : string).

(** The dictionary comprehension of [_run]: the keys [k] with
    [k not in CONSUMED_ARGUMENTS]. *)
Definition stripped (args : namespace) : namespace :=
  filter (fun kv => kv.1 ∉ CONSUMED_ARGUMENTS) args.

(** The loop of [_run] that splits the frames by file. *)
Definition split_frames (initial_file : string) (stack : list frame)
  : list frame * list frame :=
  fold_left
    (fun '(command_frames, other_frames) frame =>
       if String.eqb (tb_file frame) initial_file
       then (command_frames ++ [frame], other_frames)
       else (command_frames, other_frames ++ [frame]))
    stack ([], []).

Section Mach.

(** The text that [argparse] renders, a matter of its formatter. *)
Variable argparse_format_help : parser -> reporter -> string.
Variable argparse_format_usage : parser -> reporter -> string.
Variable prog : string.

(** [traceback.format_exception_only] and [traceback.format_list] *)
Variable format_exception_only : pyexc -> list string.
Variable format_list : list frame -> list string.

(** The code that the loaded command modules define: the methods of
    their classes, which take the working directory of the instance,
    and their bare functions. *)
Variable method_of : string -> string -> option (string -> handler).
Variable function_of : string -> option handler.

(** The file system and the import machinery that [_load_modules]
    consults. *)
Variable sys_path : list string.
Variable isdir : string -> bool.
Variable listdir : string -> list string.
Variable load_source : string -> string -> M unit.

(** *** ArgumentParser *)

Definition format_help (p : parser) (who : reporter) : outcome string :=
  let text := argparse_format_help p who in
  let search := "Commands:" +:+ newline +:+ "  {" in
  match String.index 0 search text with
  | Some start =>
      match String.index start ("}" +:+ newline) text with
      | None =>
          raise AssertionError EmptyString
            [Base.at_line main_py 96 "format_help"]
      | Some end_ =>
          let real_start :=
            (start + String.length ("Commands:" +:+ newline))%nat in
          let real_end :=
            (end_ + String.length ("}" +:+ newline))%nat in
          Returned
            (String.substring 0 real_start text +:+
             String.substring real_end (String.length text - real_end)
               text)
      end
  | None => Returned text
  end.

(** [print_help], which [argparse] builds on [format_help]. *)
Definition print_help (p : parser) (who : reporter) : M unit :=
  text <- eval (Base.called_at (Base.at_line "argparse.py" 0 "print_help")
                  (format_help p who)) ;;
  fun w => (write (sys_stdout w) text w, Returned tt).

Definition print_usage (p : parser) : M unit :=
  fun w =>
    (write (sys_stdout w) (argparse_format_usage p TopLevel) w,
     Returned tt).

Definition error {A} (p : parser) (who : reporter) (message : string)
  : M A :=
  if negb (startswith message "argument command: invalid choice") then
    fun w =>
      let '(w, r) :=
        ArgumentParser_error (argparse_format_usage p who) prog message w
      in (w, Base.called_at (Base.at_line main_py 75 "error") r)
  else
    exec (print ("Invalid command specified. The list of commands is below."
                 +:+ newline)) ;;;
    (fun w =>
       let '(w, r) := print_help p who w in
       (w, Base.called_at (Base.at_line main_py 79 "error") r)) ;;;
    eval (sys_exit 1 [Base.at_line main_py 80 "error"]).

(** *** Mach *)

Definition global_arguments : list argument :=
  [ {| option_strings := ["-h"; "--help"]; dest := "help";
       act := HelpAction; choices := None; default_value := PyNone;
       opens_file := false |};
    {| option_strings := ["-v"; "--verbose"]; dest := "verbose";
       act := StoreTrue; choices := None;
       default_value := PyBool false; opens_file := false |};
    {| option_strings := ["-l"; "--log-file"]; dest := "logfile";
       act := Store; choices := None; default_value := PyNone;
       opens_file := true |};
    {| option_strings := ["--log-interval"]; dest := "log_interval";
       act := StoreTrue; choices := None;
       default_value := PyBool false; opens_file := false |} ].

Definition get_argument_parser (w : World) : parser :=
  let parser :=
    {| p_usage := "%(prog)s [global arguments] command [command arguments]";
       p_arguments := global_arguments;
       p_dest := "command";
       p_defaults := {[ "command" := PyStr "help" ]};
       p_commands := [] |} in
  ParserBuilder.populate_argument_parser w parser.

Definition _print_error_header (argv : list string) (fh : sys_stream)
  : World -> World :=
  fun w =>
    let w := write fh ("Error running mach:" +:+ newline +:+ newline) w in
    let w := write fh "    " w in
    let w := write fh (Base.repr_list argv) w in
    write fh (newline +:+ newline) w.

Definition _print_exception (fh : sys_stream) (e : pyexc)
    (stack : list frame) : World -> World :=
  fun w =>
    let w := write fh ERROR_FOOTER w in
    let w := write fh newline w in
    let w := fold_left (fun w l => write fh l w)
               (format_exception_only e) w in
    let w := write fh newline w in
    fold_left (fun w l => write fh l w) (format_list stack) w.

Definition getattr (args : namespace) (name : string) (line : Z)
  : M pyvalue :=
  match args !! name with
  | Some v => ret v
  | None => fail AttributeError name [Base.at_line main_py line "_run"]
  end.

(** The two branches that resolve [fn]. *)
Definition resolve (self_cwd : string) (args : namespace)
  : M (target * handler) :=
  match args !! "cls" with
  | Some (PyClass c) =>
      (* instance = cls(self.cwd, None, self.log_manager) *)
      method <- getattr args "method" 244 ;;
      match method with
      | PyStr m =>
          match method_of c m with
          | Some fn => ret (Method c m, fn self_cwd)
          | None =>
              fail AttributeError m [Base.at_line main_py 244 "_run"]
          end
      | _ => fail TypeError "method" [Base.at_line main_py 244 "_run"]
      end
  | Some _ => fail TypeError "cls" [Base.at_line main_py 243 "_run"]
  | None =>
      match args !! "func" with
      | Some (PyFunc f) =>
          match function_of f with
          | Some fn => ret (Function f, fn)
          | None => fail TypeError f [Base.at_line main_py 253 "_run"]
          end
      | Some _ => fail TypeError "func" [Base.at_line main_py 253 "_run"]
      | None =>
          fail (Exception_ "Exception")
            "Dispatch configuration error in module."
            [Base.at_line main_py 250 "_run"]
      end
  end.

(** [_run] from its first line to the point where [fn] and [stripped]
    are known. *)
Definition prepare (self_cwd : string) (argv : list string)
  : M (target * handler * namespace) :=
  fun w =>
    let parser := get_argument_parser w in
    (args <- (fun w =>
                let '(w, r) :=
                  parse_args (error parser) (print_help parser)
                    parser argv w in
                (w, Base.called_at (Base.at_line main_py 220 "_run") r)) ;;
     logfile <- getattr args "logfile" 223 ;;
     (if truthy logfile then exec (add_json_handler logfile)
      else ret tt) ;;;
     verbose <- getattr args "verbose" 228 ;;
     let log_level := if truthy verbose then DEBUG else INFO in
     log_interval <- getattr args "log_interval" 234 ;;
     exec (add_terminal_logging log_level log_interval) ;;;
     let stripped := stripped args in
     tf <- resolve self_cwd args ;;
     ret (tf, stripped)) w.

(** The [except Exception] clause of [_run], for the exception [e] whose
    traceback, seen from [_run], is [tb]. *)
Definition report (argv : list string) (e : pyexc) (tb : list frame)
  : M pyvalue :=
  (* The first frame is us and is never used. *)
  let stack := drop 1 tb in
  match stack with
  | [] =>
      fail IndexError "list index out of range"
        [Base.at_line main_py 274 "_run"]
  | frame0 :: _ =>
      let initial_file := tb_file frame0 in
      let '(command_frames, other_frames) :=
        split_frames initial_file stack in
      fun w =>
        let w := _print_error_header argv (sys_stdout w) w in
        let w :=
          if (0 <? length other_frames)%nat
          then print MODULE_ERROR w
          else print COMMAND_ERROR w in
        let w := _print_exception (sys_stdout w) e stack w in
        (w, Returned (PyInt 1))
  end.

(** The block that the [try] of [_run] guards. *)
Definition try_body (fn : handler) (stripped : namespace) : M pyvalue :=
  fun w =>
    let '(w, r) := fn stripped w in
    match r with
    | Raised e tb =>
        (w, Raised e (Base.at_line main_py 253 "_run" :: tb))
    | Returned result =>
        let result := if negb (truthy result) then PyInt 0 else result in
        if isinstance_int result then (w, Returned result)
        else
          (w, raise AssertionError EmptyString
                [Base.at_line main_py 258 "_run"])
    end.

(** The [try] statement of [_run] with its two [except] clauses. *)
Definition dispatch (argv : list string) (fn : handler)
    (stripped : namespace) : M pyvalue :=
  fun w =>
    let '(w, r) := try_body fn stripped w in
    match r with
    | Returned result => (w, Returned result)
    | Raised e tb =>
        if is_KeyboardInterrupt (exc_type e) then
          (* raise ki *)
          (w, Raised e (Base.at_line main_py 262 "_run" :: tb))
        else if is_Exception (exc_type e) then report argv e tb w
        else (w, Raised e tb)
    end.

Definition _run (self_cwd : string) (argv : list string) : M pyvalue :=
  match argv with
  | [] =>
      fun w =>
        let parser := set_usage USAGE (get_argument_parser w) in
        (print_usage parser ;;; ret (PyInt 0)) w
  | arg0 :: _ =>
      if String.eqb arg0 "help" then
        fun w =>
          let parser := get_argument_parser w in
          ((fun w =>
              let '(w, r) := print_help parser TopLevel w in
              (w, Base.called_at (Base.at_line main_py 217 "_run") r)) ;;;
           ret (PyInt 0)) w
      else
        inv <- prepare self_cwd argv ;;
        let fn := snd (fst inv) in
        let stripped := snd inv in
        dispatch argv fn stripped
  end.

(** The body of the [try] of [run]. *)
Definition run_body (self_cwd : string) (argv : list string)
    (stdin stdout stderr : sys_stream) : M pyvalue :=
  let attr (s : sys_stream) (line : Z) : M (option string) :=
    match encoding s with
    | Some enc => ret enc
    | None => fail AttributeError "encoding" [Base.at_line main_py line "run"]
    end in
  enc <- attr stdin 170 ;;
  (if enc is None then exec (set_stdin (Utf8Reader stdin)) else ret tt) ;;;
  enc <- attr stdout 173 ;;
  (if enc is None then exec (set_stdout (Utf8Writer stdout)) else ret tt) ;;;
  enc <- attr stderr 176 ;;
  (if enc is None then exec (set_stderr (Utf8Writer stderr)) else ret tt) ;;;
  fun w =>
    let '(w, r) := _run self_cwd argv w in
    (w, Base.called_at (Base.at_line main_py 179 "run") r).

Definition run (self_cwd : string) (argv : list string)
    (stdin stdout stderr : option sys_stream) : M pyvalue :=
  fun w =>
    let stdin := default (sys_stdin w) stdin in
    let stdout := default (sys_stdout w) stdout in
    let stderr := default (sys_stderr w) stderr in
    let orig_stdin := sys_stdin w in
    let orig_stdout := sys_stdout w in
    let orig_stderr := sys_stderr w in
    let w := set_stdin stdin w in
    let w := set_stdout stdout w in
    let w := set_stderr stderr w in
    (* try *)
    let '(w, r) := run_body self_cwd argv stdin stdout stderr w in
    let '(w, r) :=
      match r with
      | Returned v => (w, Returned v)
      | Raised e tb =>
          if is_KeyboardInterrupt (exc_type e) then
            (print "mach interrupted by signal or user action. Stopping."
               w,
             Returned (PyInt 1))
          else if is_Exception (exc_type e) then
            let w := _print_error_header argv (sys_stdout w) w in
            let w := print MACH_ERROR w in
            let stack := tb in
            let w := _print_exception (sys_stdout w) e stack w in
            (w, Returned (PyInt 1))
          else (w, Raised e tb)
      end in
    (* finally *)
    let w := set_stdin orig_stdin w in
    let w := set_stdout orig_stdout w in
    let w := set_stderr orig_stderr w in
    (w, r).

(** The loop of [_load_modules] over the files of one directory. *)
Definition load_commands (commands_path : string) : M unit :=
  fold_left
    (fun (m : M unit) f =>
       m ;;;
       if negb (endswith f ".py") || String.eqb f "__init__.py" then ret tt
       else
         let full_path := path_join commands_path f in
         let module_name :=
           "mach.commands." +:+
           String.substring 0 (String.length f - 3) f in
         fun w =>
           let '(w, r) := load_source module_name full_path w in
           (w, Base.called_at
                 (Base.at_line main_py 328 "_load_modules") r))
    (merge_sort String.le (listdir commands_path))
    (ret tt).

(** [_load_modules]; the parent package it first enters into
    [sys.modules] is no part of the state kept here. *)
Definition _load_modules : M unit :=
  fold_left
    (fun (m : M unit) path =>
       m ;;;
       let commands_path := path_join (path_join path "mach") "commands" in
       if negb (isdir commands_path) then ret tt
       else load_commands commands_path)
    sys_path (ret tt).

(** [Mach.__init__]; the registration of the loggers with the log
    manager has no part in what follows and is left out. *)
Definition __init__ (cwd : string) : M unit :=
  if negb (isdir cwd) then
    fail AssertionError EmptyString [Base.at_line main_py 129 "__init__"]
  else
    fun w =>
      ((if negb (MODULES_SCANNED w) then
          fun w =>
            let '(w, r) := _load_modules w in
            (w, Base.called_at (Base.at_line main_py 141 "__init__") r)
        else ret tt) ;;;
       exec (set_MODULES_SCANNED true)) w.

(** *** What the [except Exception] clause of [_run] prints *)

Definition in_file (file : string) (f : frame) : bool :=
  String.eqb (tb_file f) file.

(** Every frame is from the file of the first one. *)
Definition same_file (stack : list frame) : bool :=
  match stack with
  | [] => true
  | frame0 :: _ => forallb (in_file (tb_file frame0)) stack
  end.

(** The header, a banner, the exception and the frames of [stack], all
    on [sys.stdout]. *)
Definition reported (argv : list string) (e : pyexc) (stack : list frame)
    (banner : string) (w : World) : World :=
  _print_exception (sys_stdout w) e stack
    (print banner (_print_error_header argv (sys_stdout w) w)).

End Mach.

End Main.

(** ** b2g/mach/commands: build.py, emulator.py and flash.py *)

Module Commands.
Import Base.

Definition build_py : string := "b2g/mach/commands/build.py".
Definition emulator_py : string := "b2g/mach/commands/emulator.py".
Definition flash_py : string := "b2g/mach/commands/flash.py".

(** *** The declarations, as the class bodies write them *)

Definition build_def : function :=
  decorated
    [ Command (["build"], {[ "help" := PyStr "Build B2G." ]}) ]
    (def "build").

Definition run_emulator_def : function :=
  decorated
    [ Command (["run-emulator"], {[ "help" := PyStr "Run a B2G emulator." ]}) ]
    (def "run_emulator").

Definition flash_def : function :=
  decorated
    [ Command (["flash"],
               {[ "help" := PyStr "Flash a device with a B2G image." ]});
      CommandArgument (["--serial-number"; "-s"],
                       {[ "help" := PyStr "Serial number to pass to ADB." ]});
      CommandArgument (["project"],
                       {[ "choices" :=
                            PyTuple [PyStr "gecko"; PyStr "gaia"; PyStr "time"];
                          "help" := PyStr "What to flash on the device." ]}) ]
    (def "flash").

Definition Build : pyclass :=
  {| cls_name := "Build";
     cls_dict := {[ "__module__" := AttrOther (PyStr "mach.commands.build");
                    "build" := AttrFunction build_def ]} |}.

Definition Emulator : pyclass :=
  {| cls_name := "Emulator";
     cls_dict := {[ "__module__" := AttrOther (PyStr "mach.commands.emulator");
                    "run_emulator" := AttrFunction run_emulator_def ]} |}.

Definition Flash : pyclass :=
  {| cls_name := "Flash";
     cls_dict := {[ "__module__" := AttrOther (PyStr "mach.commands.flash");
                    "flash" := AttrFunction flash_def ]} |}.

(** *** The handlers *)

Section Handlers.

Variable g : globals.
Variable ProcessHandlerMixin :
  list string -> option string -> gmap string string ->
  (string -> World -> World * outcome unit) -> bool ->
  World -> World * outcome Z.

(** The keyword arguments all three handlers give [_run_command]. *)
Definition options (name : string) : run_options :=
  {| cwd := None; append_env := None; explicit_env := None;
     log_name := Some name; log_level := INFO; line_handler := None;
     require_unix_environment := true; ignore_errors := true;
     ignore_children := false |}.

Definition returning (file : string) (line : Z) (name : string)
    (m : World -> World * outcome Z) : M pyvalue :=
  fun w =>
    let '(w, r) := m w in
    match r with
    | Returned status => (w, Returned (PyInt status))
    | Raised e tb => (w, Raised e (at_line file line name :: tb))
    end.

Definition build (self_cwd : string) : M pyvalue :=
  let args := [path_join self_cwd "build.sh"] in
  returning build_py 21 "build"
    (_run_command g ProcessHandlerMixin args (options "mach.commands.build")).

Definition run_emulator (self_cwd : string) : M pyvalue :=
  let args := [path_join self_cwd "run-emulator.sh"] in
  returning emulator_py 21 "run_emulator"
    (_run_command g ProcessHandlerMixin args
       (options "mach.commands.emulator")).

(** The argument vector that [flash] builds. *)
Definition flash_args (self_cwd project : string)
    (serial_number : option string) : list string :=
  let args := [path_join self_cwd "flash.sh"] in
  let args :=
    match serial_number with
    | Some s => args ++ [s]
    | None => args
    end in
  args ++ [project].

Definition flash (self_cwd project : string)
    (serial_number : option string) : M pyvalue :=
  returning flash_py 30 "flash"
    (_run_command g ProcessHandlerMixin
       (flash_args self_cwd project serial_number)
       (options "mach.commands.flash")).

(** *** Calling the methods with keyword arguments

    A keyword the signature does not have, or a missing required one,
    is a [TypeError] at the call, before any frame of the handler.  A
    value that is no string makes [' '.join(args)] fail inside
    [_run_command]. *)

Definition only_keys (names : list string) (kwargs : gmap string pyvalue)
  : bool :=
  forallb (fun k => bool_decide (k ∈ names)) (map fst (map_to_list kwargs)).

Definition signature_error : M pyvalue :=
  fail TypeError "unexpected or missing keyword argument" [].

Definition join_error (file : string) (line : Z) (name : string)
  : M pyvalue :=
  fail TypeError "sequence item: expected string"
    [at_line file line name; at_line base_py 160 "_run_command"].

Definition call_build (self_cwd : string) : Main.handler :=
  fun kwargs =>
    if only_keys [] kwargs then build self_cwd else signature_error.

Definition call_run_emulator (self_cwd : string) : Main.handler :=
  fun kwargs =>
    if only_keys [] kwargs then run_emulator self_cwd else signature_error.

(** [def flash(self, project, serial_number=None)] *)
Definition call_flash (self_cwd : string) : Main.handler :=
  fun kwargs =>
    if only_keys ["project"; "serial_number"] kwargs then
      match kwargs !! "project" with
      | None => signature_error
      | Some (PyStr project) =>
          match kwargs !! "serial_number" with
          | None | Some PyNone => flash self_cwd project None
          | Some (PyStr s) => flash self_cwd project (Some s)
          | Some _ => join_error flash_py 30 "flash"
          end
      | Some _ => join_error flash_py 30 "flash"
      end
    else signature_error.

Definition method_of (cls method : string)
  : option (string -> Main.handler) :=
  if String.eqb cls "Build" && String.eqb method "build"
  then Some call_build
  else if String.eqb cls "Emulator" && String.eqb method "run_emulator"
  then Some call_run_emulator
  else if String.eqb cls "Flash" && String.eqb method "flash"
  then Some call_flash
  else None.

Definition function_of (_ : string) : option Main.handler := None.

End Handlers.

(** *** A checkout

    The tree that [_load_modules] scans when [python/b2g] is on
    [sys.path], and what importing each of its files runs. *)

Definition sys_path : list string := ["/B2G/python/mach"; "/B2G/python/b2g"].

Definition commands_dir : string := "/B2G/python/b2g/mach/commands".

Definition isdir (p : string) : bool :=
  bool_decide (p ∈ ["/B2G"; commands_dir]).

Definition listdir (p : string) : list string :=
  if String.eqb p commands_dir
  then ["flash.py"; "__init__.py"; "emulator.py"; "build.py"]
  else [].

Definition load_source (module_name full_path : string) : M unit :=
  if String.eqb full_path (commands_dir +:+ "/build.py")
  then exec (CommandProvider Build)
  else if String.eqb full_path (commands_dir +:+ "/emulator.py")
  then exec (CommandProvider Emulator)
  else if String.eqb full_path (commands_dir +:+ "/flash.py")
  then exec (CommandProvider Flash)
  else fail OSError full_path [at_line "imp.py" 0 "load_source"].

Definition tty (n : nat) : sys_stream :=
  Plain {| s_id := n; s_encoding := Some (Some "UTF-8") |}.

(** A fresh process on a POSIX host. *)
Definition fresh : World :=
  {| sys_stdin := tty 0; sys_stdout := tty 1; sys_stderr := tty 2;
     environ := {[ "SHELL" := "/bin/bash" ]};
     MODULES_SCANNED := false;
     class_handlers := [];
     json_handlers := [];
     terminal_logging := None;
     log := [];
     console := [] |}.

Definition posix : globals :=
  {| _current_shell := "/bin/bash"; _in_msys := false |}.

(** The same process once a [Mach] has been constructed in it. *)
Definition loaded : World :=
  fst (Main.__init__ sys_path isdir listdir load_source "/B2G" fresh).

(** An MSYS shell on Windows, and the module globals it leads to. *)
Definition msys_environ : gmap string string :=
  {[ "MSYSTEM" := "MINGW32"; "SHELL" := "/bin/sh" ]}.

Definition msys : globals :=
  {| _current_shell := "/bin/sh.exe"; _in_msys := true |}.

Definition windows_command : list string := ["C:\foo\bar.sh"; "baz"].

(** External programs: one that prints nothing and exits with [status],
    and one that cannot be started. *)
Definition quiet (status : Z) :
  list string -> option string -> gmap string string ->
  (string -> World -> World * outcome unit) -> bool ->
  World -> World * outcome Z :=
  fun _ _ _ _ _ w => (w, Returned status).

Definition missing :
  list string -> option string -> gmap string string ->
  (string -> World -> World * outcome unit) -> bool ->
  World -> World * outcome Z :=
  fun _ _ _ _ _ w =>
    (w, raise OSError "No such file or directory"
          [at_line "mozprocess/processhandler.py" 0 "run"]).

(** Handlers that return [v], and handlers that leave through
    [sys.exit(code)]. *)
Definition returns (v : pyvalue) : Main.handler :=
  fun _ w => (w, Returned v).

Definition exits (code : Z) : Main.handler :=
  fun _ w => (w, sys_exit code [at_line flash_py 30 "flash"]).

(** A class whose body defines the one function [f] under [name]. *)
Definition provider (cls name : string) (f : function) : pyclass :=
  {| cls_name := cls; cls_dict := {[ name := AttrFunction f ]} |}.

(** Renderers for the text of [argparse] and of [traceback]. *)
Definition help_text (_ : Argparse.parser) (_ : Argparse.reporter)
  : string := "Commands:".

Definition usage_text (_ : Argparse.parser) (_ : Argparse.reporter)
  : string := "usage: mach [global arguments] command [command arguments]".

Definition exception_only (e : pyexc) : list string :=
  match exc_value e with
  | PyStr s => [s]
  | _ => []
  end.

Definition frame_lines (stack : list frame) : list string :=
  map tb_file stack.

(** The two command lines of the flash scenarios, and the keyword
    arguments they lead to. *)
Definition flash_gaia : list string :=
  ["flash"; "--serial-number"; "ABC123"; "gaia"].

Definition flash_time : list string := ["flash"; "time"].

Definition gaia_kwargs : Argparse.namespace :=
  {[ "serial_number" := PyStr "ABC123"; "project" := PyStr "gaia" ]}.

Definition time_kwargs : Argparse.namespace :=
  {[ "serial_number" := PyNone; "project" := PyStr "time" ]}.

(** The Argparse.namespace that parsing a [flash] command line yields, around the
    arguments of the command. *)
Definition parsed (kwargs : Argparse.namespace) : Argparse.namespace :=
  {[ "command" := PyStr "flash"; "verbose" := PyBool false;
     "logfile" := PyNone; "log_interval" := PyBool false;
     "cls" := PyClass "Flash"; "method" := PyStr "flash" ]} ∪ kwargs.


End Commands.


(** ** Notions used in the statements about the rest of the code *)

(** An argument that [list2cmdline] writes as it is: not empty, and
    without blank, tab or double quote. *)
Definition plain (arg : string) : bool :=
  negb (String.eqb arg EmptyString) && negb (contains space arg) &&
  negb (contains tab arg) && negb (contains dquote arg).

(** What [CommandProvider] registers for one attribute name, if
    anything. *)
Definition provided_entry (cls : Base.pyclass) (attr : string)
  : option handler_entry :=
  match Base.cls_dict cls !! attr with
  | Some (Base.AttrFunction value) =>
      match Base._mach_command value with
      | Some parser_args =>
          Some {| he_cls := Base.cls_name cls; he_method := attr;
                  he_parser_args := parser_args;
                  he_arguments :=
                    default [] (Base._mach_command_args value) |}
      | None => None
      end
  | _ => None
  end.

Definition provided (cls : Base.pyclass) : list handler_entry :=
  omap (provided_entry cls) (Base.sorted_keys cls).

(** The file names of a commands directory that [_load_modules] imports,
    in the order in which it does. *)
Definition is_module_file (f : string) : bool :=
  endswith f ".py" && negb (String.eqb f "__init__.py").

Definition module_files (listdir : string -> list string)
    (commands_path : string) : list string :=
  List.filter is_module_file (merge_sort String.le (listdir commands_path)).

(** The directories of [sys.path] that have a [mach/commands] directory. *)
Definition commands_paths (sys_path : list string) (isdir : string -> bool)
  : list string :=
  List.filter isdir
    (map (fun path => path_join (path_join path "mach") "commands") sys_path).

(** The world in which the [try] of [run] starts, and the one [run]
    leaves: the streams of the caller in place, and the original ones back
    in place. *)
Definition entered (stdin stdout stderr : option sys_stream) (w : World)
  : World :=
  set_stderr (default (sys_stderr w) stderr)
    (set_stdout (default (sys_stdout w) stdout)
       (set_stdin (default (sys_stdin w) stdin) w)).

Definition restored (orig w : World) : World :=
  set_stderr (sys_stderr orig)
    (set_stdout (sys_stdout orig) (set_stdin (sys_stdin orig) w)).

(** Two worlds that differ in what was written to the streams at most. *)
Definition same_but_console (w w' : World) : Prop :=
  sys_stdin w' = sys_stdin w /\ sys_stdout w' = sys_stdout w /\
  sys_stderr w' = sys_stderr w /\ environ w' = environ w /\
  MODULES_SCANNED w' = MODULES_SCANNED w /\
  class_handlers w' = class_handlers w /\
  json_handlers w' = json_handlers w /\
  terminal_logging w' = terminal_logging w /\ log w' = log w.

(** The first lines of the [try] of [run]: a stream whose [encoding] is
    [None] is replaced in [sys] by a [codecs] wrapper around it. *)
Definition with_codec (wrap : sys_stream -> sys_stream)
    (set : sys_stream -> World -> World) (s : sys_stream) (w : World)
  : World :=
  match encoding s with
  | Some None => set (wrap s) w
  | _ => w
  end.

Definition with_codecs (stdin stdout stderr : sys_stream) (w : World)
  : World :=
  with_codec Utf8Writer set_stderr stderr
    (with_codec Utf8Writer set_stdout stdout
       (with_codec Utf8Reader set_stdin stdin w)).

(** A handler that is interrupted. *)
Definition interrupted : Main.handler :=
  fun _ w =>
    (w, raise KeyboardInterrupt EmptyString [Base.at_line "build.py" 21 "build"]).

(** One turn of the inner loop of [_load_modules] for a file it does not
    skip, and the turns for a list of such files. *)
Definition import_file (load_source : string -> string -> M unit)
    (commands_path f : string) : M unit :=
  fun w =>
    let '(w, r) :=
      load_source
        ("mach.commands." +:+ String.substring 0 (String.length f - 3) f)
        (path_join commands_path f) w in
    (w, Base.called_at (Base.at_line Main.main_py 328 "_load_modules") r).

Definition import_each (load_source : string -> string -> M unit)
    (commands_path : string) (files : list string) : M unit :=
  fold_left (fun (m : M unit) f => m ;;; import_file load_source commands_path f)
    files (ret tt).

(** A checkout in which [flash.py] cannot be imported. *)
Definition broken_load_source (module_name full_path : string) : M unit :=
  if String.eqb full_path (Commands.commands_dir +:+ "/flash.py")
  then fail (Exception_ "SyntaxError") "invalid syntax"
         [Base.at_line Commands.flash_py 20 "<module>"]
  else Commands.load_source module_name full_path.

(** Code that leaves the [MODULES_SCANNED] guard as it finds it. *)
Definition keeps_guard {A} (m : M A) : Prop :=
  forall w, MODULES_SCANNED (fst (m w)) = MODULES_SCANNED w.

(** ** Notions used in the statements about parse errors *)








(** * Properties *)

Import Argparse Base Main Commands.

(** ** base.py: the command line of an external program *)

Lemma replace_removes (a b : ascii) (s : string) :
  a <> b -> contains a (replace a b s) = false.
Proof.
  intros Hab. induction s as [|c s IH]; simpl; [reflexivity|].
  rewrite IH, orb_false_r.
  destruct (Ascii.eqb c a) eqn:Hc.
  - apply Ascii.eqb_neq. congruence.
  - exact Hc.
Qed.

(** The import sets [_in_msys] exactly when [MSYSTEM] is [MINGW32]. *)
Lemma in_msys_iff (env : gmap string string) (g : globals) :
  module_init env = Returned g ->
  _in_msys g = true <-> env !! "MSYSTEM" = Some "MINGW32".
Proof.
  unfold module_init. destruct (detect_shell env); [|discriminate].
  destruct (decide _) as [H|H]; intros [= <-]; simpl; split; auto; discriminate.
Qed.

Lemma msys_init : module_init msys_environ = Returned msys.
Proof. vm_compute. reflexivity. Qed.

(** C7, as the claim states it, fails: in MSYS the vector
    [C:\foo\bar.sh baz] becomes [<shell> -c "C:/foo/bar.sh baz"]; the
    drive prefix stays, so the command line is not [foo/bar.sh baz]. *)
Lemma normalize_command_keeps_drive :
  module_init msys_environ = Returned msys /\
  _normalize_command msys windows_command true
  = Returned ["/bin/sh.exe"; "-c"; "C:/foo/bar.sh baz"] /\
  _normalize_command msys windows_command true
  <> Returned [_current_shell msys; "-c"; "foo/bar.sh baz"].
Proof. split; [exact msys_init|]. split; [reflexivity | discriminate]. Qed.

(** C7, amended: for a non-empty argument vector, when
    [require_unix_environment] is true and the process is in MSYS,
    [_normalize_command] returns [<shell>; -c; cline], where [cline] is
    [list2cmdline] of the vector whose program has every backslash
    replaced by a slash and nothing else changed (for [C:\foo\bar.sh baz]
    it is [C:/foo/bar.sh baz]); when the flag is false or the process is
    not in MSYS, the vector comes back unchanged. *)
Theorem normalize_command_msys (g : globals) (args : list string)
    (require_unix_environment : bool) :
  args <> [] ->
  (require_unix_environment = true -> _in_msys g = true ->
     exists arg0 rest, args = arg0 :: rest /\
       let prog := replace backslash slash arg0 in
       contains backslash prog = false /\
       String.length prog = String.length arg0 /\
       _normalize_command g args require_unix_environment
       = Returned [_current_shell g; "-c"; list2cmdline (prog :: rest)]) /\
  (require_unix_environment = false \/ _in_msys g = false ->
     _normalize_command g args require_unix_environment = Returned args) /\
  (g = msys -> args = windows_command -> require_unix_environment = true ->
     _normalize_command g args require_unix_environment
     = Returned ["/bin/sh.exe"; "-c"; "C:/foo/bar.sh baz"]).
Proof.
  intros Hne. destruct args as [|arg0 rest]; [congruence|].
  split; [|split].
  - intros -> Hm. exists arg0, rest. split; [reflexivity|].
    split; [|split].
    + apply replace_removes. discriminate.
    + clear. induction arg0 as [|c s IH]; simpl; congruence.
    + unfold _normalize_command. rewrite Hm. reflexivity.
  - intros [-> | Hm]; unfold _normalize_command; [reflexivity|].
    rewrite Hm. simpl. rewrite orb_true_r. reflexivity.
  - intros -> [= -> ->] ->. reflexivity.
Qed.

Lemma normalize_command_msys_witness :
  _normalize_command msys windows_command true
  = Returned ["/bin/sh.exe"; "-c"; "C:/foo/bar.sh baz"] /\
  _normalize_command posix ["/B2G/flash.sh"; "gaia"] true
  = Returned ["/B2G/flash.sh"; "gaia"].
Proof.
  split.
  - apply (normalize_command_msys msys windows_command true);
      [discriminate | reflexivity ..].
  - apply (normalize_command_msys posix ["/B2G/flash.sh"; "gaia"] true);
      [discriminate | right; reflexivity].
Defined.

(** C8: once the external process has run to completion with exit status
    [status], [_run_command] raises exactly when [status] is non-zero and
    [ignore_errors] is false; otherwise it returns [status]. *)
Theorem run_command_raises_iff (g : globals)
    (ProcessHandlerMixin :
       list string -> option string -> gmap string string ->
       (string -> World -> World * outcome unit) -> bool ->
       World -> World * outcome Z)
    (args : list string) (o : run_options) (w : World)
    (command : list string) (w' : World) (status : Z) :
  _normalize_command g args (require_unix_environment o) = Returned command ->
  ProcessHandlerMixin command (cwd o) (use_env o w) (handleLine o)
    (ignore_children o) (before_process command o w)
  = (w', Returned status) ->
  let r := _run_command g ProcessHandlerMixin args o w in
  fst r = w' /\
  ((exists e tb, snd r = Raised e tb) <->
     status <> 0 /\ ignore_errors o = false) /\
  (status = 0 \/ ignore_errors o = true -> snd r = Returned status).
Proof.
  intros Hn Hp. unfold _run_command. rewrite Hn.
  unfold before_process in Hp.
  change (use_env o (log_event INFO "process" (ParamArgs command)
                       (join " " command) w))
    with (use_env o w) in *.
  rewrite Hp. cbv zeta.
  destruct (Z.eqb_spec status 0) as [->|Hs]; simpl.
  - split; [reflexivity|]. split; [|reflexivity].
    split; [intros (e & tb & [=])|intros [H _]; congruence].
  - destruct (ignore_errors o); simpl.
    + split; [reflexivity|]. split; [|reflexivity].
      split; [intros (e & tb & [=])|intros [_ [=]]].
    + split; [reflexivity|]. split.
      * split; [auto|]. intros _. eauto.
      * intros [?|[=]]. congruence.
Qed.

Lemma run_command_raises_iff_witness :
  exists e tb,
    snd (_run_command posix (quiet 2) ["/B2G/build.sh"] defaults fresh)
    = Raised e tb.
Proof.
  apply (run_command_raises_iff posix (quiet 2) ["/B2G/build.sh"] defaults
           fresh ["/B2G/build.sh"] _ 2 eq_refl eq_refl).
  split; [discriminate | reflexivity].
Defined.

(** The handlers of this repository pass [ignore_errors=True]: a failing
    script is an exit status, not an exception. *)
Example build_returns_status :
  snd (build posix (quiet 2) "/B2G" fresh) = Returned (PyInt 2).
Proof. reflexivity. Qed.

(** ** base.py: the decorators *)

Lemma decorated_args (specs : list decl) (f : function) :
  default [] (_mach_command_args (decorated (map CommandArgument specs) f))
  = default [] (_mach_command_args f) ++ rev specs.
Proof.
  induction specs as [|d specs IH]; simpl.
  - rewrite app_nil_r. reflexivity.
  - rewrite IH. rewrite app_assoc. reflexivity.
Qed.

Lemma sorted_keys_provider (cls name : string) (f : function) :
  sorted_keys (provider cls name f) = [name].
Proof.
  unfold sorted_keys, provider. simpl. rewrite map_to_list_singleton.
  reflexivity.
Qed.

(** C4: for a handler declared with [Command] and then the argument
    specs [specs] in source order, the decorators leave the specs on the
    function in reverse source order, [CommandProvider] registers them
    so, and the parser built from the registration presents them in source
    order. *)
Theorem argument_order_is_declaration_order (cls name : string)
    (command : decl) (specs : list decl) (w : World) :
  let f :=
    decorated (Command command :: map CommandArgument specs) (def name) in
  let he :=
    {| he_cls := cls; he_method := name; he_parser_args := command;
       he_arguments := rev specs |} in
  default [] (_mach_command_args f) = rev specs /\
  class_handlers (CommandProvider (provider cls name f) w)
  = class_handlers w ++ [he] /\
  ParserBuilder.resolved_arguments he = specs /\
  sp_arguments (ParserBuilder.command_parser he) = map add_argument specs.
Proof.
  intros f he.
  assert (Hargs : default [] (_mach_command_args f) = rev specs).
  { unfold f. simpl. rewrite decorated_args. reflexivity. }
  split; [exact Hargs|]. split; [|split].
  - unfold CommandProvider. rewrite sorted_keys_provider. simpl.
    unfold provide_attr, provider. simpl. rewrite lookup_singleton_eq.
    simpl. unfold f in Hargs. simpl in Hargs. rewrite Hargs.
    destruct command. reflexivity.
  - unfold ParserBuilder.resolved_arguments. simpl. apply rev_involutive.
  - unfold ParserBuilder.command_parser, ParserBuilder.resolved_arguments.
    simpl. rewrite rev_involutive. reflexivity.
Qed.

(** The three specs A, B, C of the claim, C nearest the function. *)
Example three_arguments :
  let A := (["--alpha"], ∅) : decl in
  let B := (["--beta"], ∅) : decl in
  let C := (["gamma"], ∅) : decl in
  let f :=
    decorated [Command (["cmd"], ∅); CommandArgument A; CommandArgument B;
               CommandArgument C] (def "cmd") in
  _mach_command_args f = Some [C; B; A] /\
  map (fun sp => ParserBuilder.argument_order sp)
      (p_commands
         (ParserBuilder.populate_argument_parser
            (CommandProvider (provider "Cls" "cmd" f) fresh)
            {| p_usage := EmptyString; p_arguments := []; p_dest := "command";
               p_defaults := ∅; p_commands := [] |}))
  = [["alpha"; "beta"; "gamma"]].
Proof. split; vm_compute; reflexivity. Qed.

(** The registry after the scan of the checkout, and the order in which
    the parser of [flash] presents its arguments. *)
Example flash_argument_order :
  map (fun sp => (sp_name sp, ParserBuilder.argument_order sp))
      (p_commands (get_argument_parser loaded))
  = [("build", []); ("run-emulator", []);
     ("flash", ["serial_number"; "project"])].
Proof. vm_compute. reflexivity. Qed.

(** ** main.py: the dispatcher *)

Lemma split_frames_acc (file : string) (stack cf others : list frame) :
  fold_left
    (fun '(command_frames, other_frames) frame =>
       if String.eqb (tb_file frame) file
       then (command_frames ++ [frame], other_frames)
       else (command_frames, other_frames ++ [frame]))
    stack (cf, others)
  = (cf ++ List.filter (in_file file) stack,
     others ++ List.filter (fun f => negb (in_file file f)) stack).
Proof.
  revert cf others. induction stack as [|f stack IH]; intros cf others; simpl.
  - rewrite !app_nil_r. reflexivity.
  - change (in_file file f) with (String.eqb (tb_file f) file).
    destruct (String.eqb (tb_file f) file); simpl;
      rewrite IH, <- app_assoc; reflexivity.
Qed.

(** The loop of [_run] sorts the frames into those of the first file and
    the others, keeping their order. *)
Lemma split_frames_filter (file : string) (stack : list frame) :
  split_frames file stack
  = (List.filter (in_file file) stack,
     List.filter (fun f => negb (in_file file f)) stack).
Proof. unfold split_frames. rewrite split_frames_acc. reflexivity. Qed.

Lemma no_other_frames (file : string) (stack : list frame) :
  (0 <? length (List.filter (fun f => negb (in_file file f)) stack))%nat
  = negb (forallb (in_file file) stack).
Proof.
  induction stack as [|f stack IH]; simpl; [reflexivity|].
  destruct (in_file file f); simpl; [exact IH | reflexivity].
Qed.

Lemma stripped_lookup (args : namespace) (k : string) :
  stripped args !! k
  = if decide (k ∈ CONSUMED_ARGUMENTS) then None else args !! k.
Proof.
  unfold stripped. destruct (decide _) as [Hk|Hk].
  - apply map_lookup_filter_None. right. intros x _ Hx. exact (Hx Hk).
  - destruct (args !! k) as [v|] eqn:Hv.
    + apply map_lookup_filter_Some. split; [exact Hv | exact Hk].
    + apply map_lookup_filter_None. left. exact Hv.
Qed.

Lemma set_scanned_id (w : World) :
  MODULES_SCANNED w = true -> set_MODULES_SCANNED true w = w.
Proof. destruct w; simpl; intros ->; reflexivity. Qed.

Section Dispatcher.

Variable argparse_format_help : parser -> reporter -> string.
Variable argparse_format_usage : parser -> reporter -> string.
Variable prog : string.
Variable format_exception_only : pyexc -> list string.
Variable format_list : list frame -> list string.
Variable method_of : string -> string -> option (string -> handler).
Variable function_of : string -> option handler.

Abbreviation dispatch' := (dispatch format_exception_only format_list).
Abbreviation report' := (report format_exception_only format_list).
Abbreviation reported' := (reported format_exception_only format_list).
Abbreviation prepare' :=
  (prepare argparse_format_help argparse_format_usage prog method_of
     function_of).
Abbreviation _run' :=
  (_run argparse_format_help argparse_format_usage prog
     format_exception_only format_list method_of function_of).
Abbreviation error' :=
  (@error argparse_format_help argparse_format_usage prog).
Abbreviation print_help' := (print_help argparse_format_help).

(** What the [except Exception] clause does with a traceback whose
    first frame is the dispatcher's. *)
Lemma report_banner (argv : list string) (e : pyexc) (frame0 : frame)
    (rest : list frame) (w : World) :
  report' argv e (frame0 :: rest) w
  = match rest with
    | [] => (w, raise IndexError "list index out of range"
                   [at_line main_py 274 "_run"])
    | _ => (reported' argv e rest
              (if same_file rest then COMMAND_ERROR else MODULE_ERROR) w,
            Returned (PyInt 1))
    end.
Proof.
  unfold report. destruct rest as [|f1 rest]; [reflexivity|].
  change (drop 1 (frame0 :: f1 :: rest)) with (f1 :: rest). cbv beta iota.
  rewrite split_frames_filter. rewrite no_other_frames.
  unfold same_file, reported.
  destruct (forallb _ _); reflexivity.
Qed.

(** C1, amended: when a handler raises an exception that is an instance
    of [Exception] (so neither [KeyboardInterrupt] nor [SystemExit] nor
    [GeneratorExit]) with at least one frame of its own in the
    traceback, the dispatcher drops the first (dispatcher) frame of the
    captured traceback; if every remaining frame is from the file of the
    first remaining one it prints the [COMMAND_ERROR] banner, otherwise
    the [MODULE_ERROR] banner; in both cases [_run] returns 1. *)
Theorem dispatch_classifies_exception (argv : list string) (fn : handler)
    (kwargs : namespace) (w w' : World) (e : pyexc) (tb : list frame) :
  fn kwargs w = (w', Raised e tb) ->
  is_Exception (exc_type e) = true ->
  tb <> [] ->
  try_body fn kwargs w = (w', Raised e (at_line main_py 253 "_run" :: tb)) /\
  dispatch' argv fn kwargs w
  = (reported' argv e tb
       (if same_file tb then COMMAND_ERROR else MODULE_ERROR) w',
     Returned (PyInt 1)).
Proof.
  intros Hfn He Htb.
  assert (Hbody : try_body fn kwargs w
                  = (w', Raised e (at_line main_py 253 "_run" :: tb))).
  { unfold try_body. rewrite Hfn. reflexivity. }
  split; [exact Hbody|].
  unfold dispatch. rewrite Hbody. rewrite He.
  destruct (exc_type e); try discriminate He;
    simpl is_KeyboardInterrupt; cbv iota;
    rewrite report_banner; destruct tb; congruence.
Qed.

(** C2: after a handler has returned, the dispatcher gives 0 for a falsy
    result and a truthy integer result unchanged; for a truthy result
    that is no integer the assertion fails, and the result is not
    returned. *)
Theorem dispatch_normalizes_result (argv : list string) (fn : handler)
    (kwargs : namespace) (w w' : World) (v : pyvalue) :
  fn kwargs w = (w', Returned v) ->
  (truthy v = false ->
     dispatch' argv fn kwargs w = (w', Returned (PyInt 0))) /\
  (truthy v = true -> isinstance_int v = true ->
     dispatch' argv fn kwargs w = (w', Returned v)) /\
  (truthy v = true -> isinstance_int v = false ->
     try_body fn kwargs w
     = (w', raise AssertionError EmptyString [at_line main_py 258 "_run"]) /\
     forall r, snd (dispatch' argv fn kwargs w) <> Returned r).
Proof.
  intros Hfn. unfold dispatch, try_body. rewrite Hfn.
  split; [|split].
  - intros ->. reflexivity.
  - intros Ht Hi. rewrite Ht. simpl. rewrite Hi. reflexivity.
  - intros Ht Hi. rewrite Ht. simpl. rewrite Hi. simpl.
    split; [reflexivity|]. discriminate.
Qed.

Lemma prepare_inv (cwd : string) (argv : list string) (w w' : World)
    (t : target) (fn : handler) (kwargs : namespace) :
  prepare' cwd argv w = (w', Returned (t, fn, kwargs)) ->
  exists w0 args,
    parse_args (error' (get_argument_parser w))
               (print_help' (get_argument_parser w))
               (get_argument_parser w) argv w = (w0, Returned args) /\
    kwargs = stripped args.
Proof.
  unfold prepare, bind.
  destruct (parse_args _ _ _ argv w) as [w0 [args|e tb]]; simpl;
    [|discriminate].
  intros H. exists w0, args. split; [reflexivity|].
  unfold getattr, ret, fail in H.
  destruct (args !! "logfile") as [logfile|]; [|discriminate].
  destruct (truthy logfile); simpl in H;
    (destruct (args !! "verbose"); [|discriminate]);
    (destruct (args !! "log_interval"); [|discriminate]); simpl in H;
    match type of H with
    | (let (_, _) := ?R in _) = _ => destruct R as [w2 [[t' fn']|]]
    end; simpl in H; congruence.
Qed.

(** C3: for every command that [_run] dispatches, the keyword arguments
    the handler is called with are the parsed namespace without the keys
    of [CONSUMED_ARGUMENTS]: none of those keys is in them, and every
    other key has the value the parser gave it. *)
Theorem handler_kwargs_stripped (cwd : string) (argv : list string)
    (w w' : World) (t : target) (fn : handler) (kwargs : namespace) :
  prepare' cwd argv w = (w', Returned (t, fn, kwargs)) ->
  (exists w0 args,
     parse_args (error' (get_argument_parser w))
                (print_help' (get_argument_parser w))
                (get_argument_parser w) argv w = (w0, Returned args) /\
     kwargs = stripped args /\
     forall k, k ∉ CONSUMED_ARGUMENTS -> kwargs !! k = args !! k) /\
  (forall k, k ∈ CONSUMED_ARGUMENTS -> kwargs !! k = None) /\
  (forall arg0 rest, argv = arg0 :: rest -> arg0 <> "help" ->
     _run' cwd argv w = dispatch' argv fn kwargs w' /\
     forall w'' n, fn kwargs w' = (w'', Returned (PyInt n)) ->
       _run' cwd argv w = (w'', Returned (PyInt n))).
Proof.
  intros H. destruct (prepare_inv _ _ _ _ _ _ _ H) as (w0 & args & Hp & ->).
  split; [|split].
  - exists w0, args. split; [exact Hp|]. split; [reflexivity|].
    intros k Hk. rewrite stripped_lookup.
    destruct (decide _) as [Hin|_]; [contradiction | reflexivity].
  - intros k Hk. rewrite stripped_lookup.
    destruct (decide _) as [_|Hout]; [reflexivity | contradiction].
  - intros arg0 rest -> Hne.
    assert (Hrun : _run' cwd (arg0 :: rest) w
                   = dispatch' (arg0 :: rest) fn (stripped args) w').
    { unfold _run. apply String.eqb_neq in Hne. rewrite Hne.
      unfold bind. rewrite H. reflexivity. }
    split; [exact Hrun|].
    intros w'' n Hfn. rewrite Hrun. unfold dispatch, try_body.
    rewrite Hfn. simpl. destruct (Z.eqb_spec n 0) as [->|]; reflexivity.
Qed.

(** C10: whatever [run] is called with and however it ends, [sys.stdin],
    [sys.stdout] and [sys.stderr] reference afterwards what they
    referenced before the call. *)
Theorem run_restores_streams (cwd : string) (argv : list string)
    (stdin stdout stderr : option sys_stream) (w : World) :
  let w' :=
    fst (run argparse_format_help argparse_format_usage prog
           format_exception_only format_list method_of function_of
           cwd argv stdin stdout stderr w) in
  sys_stdin w' = sys_stdin w /\
  sys_stdout w' = sys_stdout w /\
  sys_stderr w' = sys_stderr w.
Proof.
  unfold run. cbv zeta.
  destruct (run_body _ _ _ _ _ _ _ _ _ _ _ _ _) as [w0 [v|e tb]].
  - simpl. auto.
  - destruct (is_KeyboardInterrupt (exc_type e)); [simpl; auto|].
    destruct (is_Exception (exc_type e)); simpl; auto.
Qed.

End Dispatcher.

Section Construction.

Variable sys_path : list string.
Variable isdir : string -> bool.
Variable listdir : string -> list string.
Variable load_source : string -> string -> M unit.

Abbreviation __init__' := (__init__ sys_path isdir listdir).

Lemma init_sets_guard (cwd : string) (w w1 : World) :
  __init__' load_source cwd w = (w1, Returned tt) ->
  MODULES_SCANNED w1 = true.
Proof.
  unfold __init__. destruct (isdir cwd); simpl; [|discriminate].
  unfold bind. destruct (MODULES_SCANNED w); simpl.
  - intros [= <-]. reflexivity.
  - destruct (_load_modules _ _ _ _ w) as [w0 [[]|e tb]]; simpl.
    + intros [= <-]. reflexivity.
    + discriminate.
Qed.

(** C9: a construction of [Mach] that succeeds leaves the guard set, and
    every later construction in the same process, whatever loading a
    module would do, leaves the whole process state, the registry in it,
    as it was. *)
Theorem modules_scanned_once (cwd : string) (w w1 : World) :
  __init__' load_source cwd w = (w1, Returned tt) ->
  MODULES_SCANNED w1 = true /\
  forall (cwd' : string) (load_source' : string -> string -> M unit),
    let w2 := fst (__init__' load_source' cwd' w1) in
    w2 = w1 /\ class_handlers w2 = class_handlers w1.
Proof.
  intros H. pose proof (init_sets_guard _ _ _ H) as Hg.
  split; [exact Hg|].
  intros cwd' ls w2. unfold w2, __init__.
  destruct (isdir cwd'); simpl; [|auto].
  unfold bind. rewrite Hg. simpl. rewrite set_scanned_id by exact Hg. auto.
Qed.

End Construction.

(** C1, as the claim states it, fails: an exception that is not a
    [KeyboardInterrupt] need not be an [Exception].  A handler that calls
    [sys.exit(3)] raises [SystemExit]; neither [except] clause of [_run]
    takes it, nothing is printed and [_run] does not return 1. *)
Lemma dispatch_lets_SystemExit_through :
  let fn := exits 3 in
  let e := {| exc_type := SystemExit; exc_value := PyInt 3 |} in
  let tb := [at_line flash_py 30 "flash"] in
  fn ∅ loaded = (loaded, Raised e tb) /\
  is_KeyboardInterrupt (exc_type e) = false /\
  dispatch exception_only frame_lines ["flash"; "gaia"] fn ∅ loaded
  = (loaded, Raised e (at_line main_py 253 "_run" :: tb)) /\
  snd (dispatch exception_only frame_lines ["flash"; "gaia"] fn ∅ loaded)
  <> Returned (PyInt 1).
Proof.
  cbv zeta. split; [reflexivity|]. split; [reflexivity|].
  split; [reflexivity | discriminate].
Qed.

Lemma dispatch_classifies_exception_witness :
  snd (dispatch exception_only frame_lines flash_time
         (call_flash posix missing "/B2G") time_kwargs loaded)
  = Returned (PyInt 1) /\
  same_file [at_line flash_py 30 "flash"; at_line base_py 190 "_run_command";
             at_line "mozprocess/processhandler.py" 0 "run"] = false.
Proof.
  split; [|reflexivity].
  edestruct (dispatch_classifies_exception exception_only frame_lines
               flash_time (call_flash posix missing "/B2G") time_kwargs
               loaded) as [_ H].
  - vm_compute. reflexivity.
  - reflexivity.
  - discriminate.
  - rewrite H. reflexivity.
Defined.

(** A handler whose own code fails: every frame is in [flash.py]. *)
Example command_error_banner :
  let tb := [at_line flash_py 30 "flash"; at_line flash_py 12 "helper"] in
  let e := {| exc_type := Exception_ "ValueError"; exc_value := PyStr "bad" |} in
  let fn : handler := fun _ w => (w, Raised e tb) in
  dispatch exception_only frame_lines flash_time fn time_kwargs fresh
  = (reported exception_only frame_lines flash_time e tb COMMAND_ERROR fresh,
     Returned (PyInt 1)).
Proof.
  cbv zeta. unfold dispatch, try_body. simpl is_KeyboardInterrupt.
  cbv beta iota. rewrite report_banner. reflexivity.
Qed.

(** A failure at the call itself leaves no frame past the dispatcher's;
    the lookup of the first one then fails in [_run]. *)
Example no_handler_frame :
  snd (dispatch exception_only frame_lines ["build"; "x"]
         (call_build posix (quiet 0) "/B2G") {[ "x" := PyNone ]} fresh)
  = raise IndexError "list index out of range" [at_line main_py 274 "_run"].
Proof. vm_compute. reflexivity. Qed.

Lemma dispatch_normalizes_result_witness :
  dispatch exception_only frame_lines flash_time (returns PyNone) ∅ fresh
  = (fresh, Returned (PyInt 0)) /\
  dispatch exception_only frame_lines flash_time (returns (PyInt 3)) ∅ fresh
  = (fresh, Returned (PyInt 3)) /\
  snd (dispatch exception_only frame_lines flash_time
         (returns (PyStr "done")) ∅ fresh) <> Returned (PyStr "done").
Proof.
  split; [|split].
  - apply (dispatch_normalizes_result exception_only frame_lines flash_time
             (returns PyNone) ∅ fresh fresh PyNone eq_refl). reflexivity.
  - apply (dispatch_normalizes_result exception_only frame_lines flash_time
             (returns (PyInt 3)) ∅ fresh fresh (PyInt 3) eq_refl);
      reflexivity.
  - apply (dispatch_normalizes_result exception_only frame_lines flash_time
             (returns (PyStr "done")) ∅ fresh fresh (PyStr "done") eq_refl);
      reflexivity.
Defined.

(** ** The parser and the flash scenarios *)




(** The parser depends on the world through the registry only. *)
Lemma parser_of_registry (w w' : World) :
  class_handlers w = class_handlers w' ->
  get_argument_parser w = get_argument_parser w'.
Proof.
  unfold get_argument_parser, ParserBuilder.populate_argument_parser.
  intros ->. reflexivity.
Qed.

Lemma parse_flash_gaia
    (err : reporter -> string -> World -> World * outcome namespace)
    (ph : reporter -> World -> World * outcome unit) (w : World) :
  parse_args err ph (get_argument_parser loaded) flash_gaia w
  = (w, Returned (parsed gaia_kwargs)).
Proof.
  unfold parse_args.
  replace (consume_top _ _ _ _)
    with (TopLevel, Parsed (parsed gaia_kwargs) []);
    [reflexivity|]. vm_compute. reflexivity.
Qed.


Lemma stripped_gaia : stripped (parsed gaia_kwargs) = gaia_kwargs.
Proof. vm_compute. reflexivity. Qed.


(** ** Parse errors and the error hook *)


Lemma append_nil (s : string) : "" +:+ s = s.
Proof. reflexivity. Qed.

Lemma append_cons (c : ascii) (s t : string) :
  String c s +:+ t = String c (s +:+ t).
Proof. reflexivity. Qed.

Tactic Notation "split_name" ident(N) ident(HQ) ident(Hpre) :=
  destruct N as [|? N];
  [ rewrite append_nil in HQ; subst; cbv in Hpre; try discriminate
  | rewrite append_cons in HQ; injection HQ as ? HQ; subst ].















Section Scenarios.

Variable argparse_format_help : parser -> reporter -> string.
Variable argparse_format_usage : parser -> reporter -> string.
Variable prog : string.
Variable format_exception_only : pyexc -> list string.
Variable format_list : list frame -> list string.
Variable method_of : string -> string -> option (string -> handler).
Variable function_of : string -> option handler.

Abbreviation prepare' :=
  (prepare argparse_format_help argparse_format_usage prog method_of
     function_of).
Abbreviation _run' :=
  (_run argparse_format_help argparse_format_usage prog
     format_exception_only format_list method_of function_of).
Abbreviation error' :=
  (@error argparse_format_help argparse_format_usage prog).
Abbreviation print_help' := (print_help argparse_format_help).

(** [prepare] on a command line that parses, without [--verbose],
    [--log-file] or [--log-interval], to a command of a class. *)
Lemma prepare_of_parse (cwd : string) (argv : list string) (w : World)
    (args : namespace) (c m : string) (fn : string -> handler) :
  parse_args (error' (get_argument_parser w))
    (print_help' (get_argument_parser w)) (get_argument_parser w) argv w
  = (w, Returned args) ->
  args !! "logfile" = Some PyNone ->
  args !! "verbose" = Some (PyBool false) ->
  args !! "log_interval" = Some (PyBool false) ->
  args !! "cls" = Some (PyClass c) ->
  args !! "method" = Some (PyStr m) ->
  method_of c m = Some fn ->
  prepare' cwd argv w
  = (add_terminal_logging INFO (PyBool false) w,
     Returned (Method c m, fn cwd, stripped args)).
Proof.
  intros Hp Hl Hv Hi Hc Hm Hfn.
  unfold prepare. unfold bind at 1. cbv beta zeta. rewrite Hp.
  cbv beta iota. unfold called_at.
  unfold bind, getattr, resolve, ret, exec. rewrite Hl, Hv, Hi. simpl.
  rewrite Hc. unfold getattr, bind, ret. rewrite Hm. rewrite Hfn.
  reflexivity.
Qed.


End Scenarios.

(** What [prepare] makes of the two flash command lines, in any world with
    the registry of the checkout. *)
Lemma prepare_flash_gaia (fh fu : parser -> reporter -> string)
    (prog : string) (g : globals)
    (PHM : list string -> option string -> gmap string string ->
           (string -> World -> World * outcome unit) -> bool ->
           World -> World * outcome Z)
    (cwd : string) (w : World) :
  class_handlers w = class_handlers loaded ->
  prepare fh fu prog (method_of g PHM) function_of cwd flash_gaia w
  = (add_terminal_logging INFO (PyBool false) w,
     Returned (Method "Flash" "flash", call_flash g PHM cwd, gaia_kwargs)).
Proof.
  intros H. rewrite <- stripped_gaia.
  apply prepare_of_parse; try reflexivity.
  rewrite (parser_of_registry _ _ H). apply parse_flash_gaia.
Qed.





(** The two scenarios from the command line to the exit code, with a
    flash script that succeeds. *)
Example flash_end_to_end :
  let run_flash :=
    _run help_text usage_text "mach" exception_only frame_lines
      (method_of posix (quiet 0)) function_of "/B2G" in
  snd (run_flash flash_gaia loaded) = Returned (PyInt 0) /\
  List.hd_error (log (fst (run_flash flash_gaia loaded)))
  = Some {| lr_level := INFO; lr_action := "process";
            lr_params := ParamArgs ["/B2G/flash.sh"; "ABC123"; "gaia"];
            lr_format := "/B2G/flash.sh ABC123 gaia" |} /\
  List.hd_error (log (fst (run_flash flash_time loaded)))
  = Some {| lr_level := INFO; lr_action := "process";
            lr_params := ParamArgs ["/B2G/flash.sh"; "time"];
            lr_format := "/B2G/flash.sh time" |}.
Proof. cbv zeta. split; [|split]; vm_compute; reflexivity. Qed.

Lemma handler_kwargs_stripped_witness :
  gaia_kwargs !! "command" = None /\ gaia_kwargs !! "cls" = None /\
  gaia_kwargs !! "verbose" = None.
Proof.
  destruct (handler_kwargs_stripped help_text usage_text "mach" exception_only
              frame_lines (method_of posix (quiet 0)) function_of "/B2G"
              flash_gaia loaded _ _ _ gaia_kwargs
              (prepare_flash_gaia help_text usage_text "mach" posix (quiet 0)
                 "/B2G" loaded eq_refl)) as (_ & H & _).
  split; [|split]; apply H; apply (bool_decide_eq_true_1 _); vm_compute;
    reflexivity.
Defined.



(** A parse error of another kind: [flash] without its project. *)
Example missing_project :
  snd (_run help_text usage_text "mach" exception_only frame_lines
         (method_of posix (quiet 0)) function_of "/B2G" ["flash"] loaded)
  = sys_exit 2 [at_line main_py 220 "_run"; at_line main_py 75 "error";
                at_line "argparse.py" 0 "error";
                at_line "argparse.py" 0 "exit"].
Proof. vm_compute. reflexivity. Qed.

Lemma modules_scanned_once_witness :
  MODULES_SCANNED loaded = true /\
  fst (__init__ sys_path isdir listdir load_source "/B2G" loaded) = loaded /\
  map he_cls (class_handlers loaded) = ["Build"; "Emulator"; "Flash"].
Proof.
  assert (H : __init__ sys_path isdir listdir load_source "/B2G" fresh
              = (loaded, Returned tt)) by (vm_compute; reflexivity).
  destruct (modules_scanned_once sys_path isdir listdir load_source "/B2G"
              fresh loaded H) as [Hg Hskip].
  split; [exact Hg|]. split; [apply (Hskip "/B2G" load_source)|].
  vm_compute. reflexivity.
Defined.

(** While [run] executes, the streams are the ones the caller supplied,
    wrapped when they have no encoding; afterwards they are the original
    ones again. *)
Example streams_during_run :
  let pipe := Plain {| s_id := 7; s_encoding := Some None |} in
  let seen : handler := fun _ w =>
    (w, Returned match sys_stdout w with
                 | Utf8Writer (Plain o) => PyInt (Z.of_nat (s_id o))
                 | _ => PyInt 0
                 end) in
  let mo := fun (_ _ : string) => Some (fun _ : string => seen) in
  let r := run help_text usage_text "mach" exception_only frame_lines
             mo function_of "/B2G" ["build"] None (Some pipe) None loaded in
  snd r = Returned (PyInt 7) /\ sys_stdout (fst r) = tty 1.
Proof. cbv zeta. split; vm_compute; reflexivity. Qed.

(** * Further properties of the code *)

(** ** base.py: the environment of the import *)

Lemma detect_shell_None (env : gmap string string) :
  detect_shell env = None <->
  env !! "SHELL" = None /\ env !! "MOZILLABUILD" = None /\
  env !! "COMSPEC" = None.
Proof.
  unfold detect_shell.
  destruct (env !! "SHELL"), (env !! "MOZILLABUILD"), (env !! "COMSPEC");
    split; try discriminate; try (intros (? & ? & ?); discriminate); auto.
Qed.

Lemma lower_app (a b : string) : lower (a +:+ b) = lower a +:+ lower b.
Proof. induction a; simpl; [reflexivity | rewrite IHa; reflexivity]. Qed.

Lemma rev_app_app (a b acc : string) :
  String.rev_app (a +:+ b) acc = String.rev_app b (String.rev_app a acc).
Proof. revert acc. induction a; simpl; intros; [reflexivity | apply IHa]. Qed.

Lemma endswith_exe_appended (sh : string) :
  endswith (lower (sh +:+ ".exe")) ".exe" = true.
Proof.
  unfold endswith, String.rev. rewrite lower_app, rev_app_app. simpl.
  destruct (String.rev_app (lower sh) EmptyString); reflexivity.
Qed.

(** X1: importing [mach.base] fails exactly when none of [SHELL],
    [MOZILLABUILD] and [COMSPEC] is in the environment; [SHELL] goes
    before the other two, and [MOZILLABUILD], which names the directory of
    the shell, before [COMSPEC]. *)
Theorem module_init_needs_a_shell (env : gmap string string) :
  ((exists e tb, module_init env = Raised e tb) <->
     env !! "SHELL" = None /\ env !! "MOZILLABUILD" = None /\
     env !! "COMSPEC" = None) /\
  (forall sh, env !! "SHELL" = Some sh -> detect_shell env = Some sh) /\
  (forall m, env !! "SHELL" = None -> env !! "MOZILLABUILD" = Some m ->
     detect_shell env = Some (m +:+ "/msys/bin/sh.exe")) /\
  (env !! "SHELL" = None -> env !! "MOZILLABUILD" = None ->
     detect_shell env = env !! "COMSPEC").
Proof.
  split; [|split; [|split]].
  - rewrite <- detect_shell_None. unfold module_init.
    destruct (detect_shell env) as [sh|].
    + split; [|discriminate].
      intros (e & tb & H). destruct (decide _); discriminate.
    + split; [reflexivity|]. intros _. unfold raise. eauto.
  - intros sh Hs. unfold detect_shell. rewrite Hs. reflexivity.
  - intros m Hs Hm. unfold detect_shell. rewrite Hs, Hm. reflexivity.
  - intros Hs Hm. unfold detect_shell. rewrite Hs, Hm. reflexivity.
Qed.

(** X2: after a successful import, outside MSYS the shell is the detected
    one unchanged; in MSYS its name ends in [.exe] whatever the case of
    the letters, and a detected name that already did is kept as it is. *)
Theorem msys_shell_is_exe (env : gmap string string) (g : globals)
    (sh : string) :
  module_init env = Returned g ->
  detect_shell env = Some sh ->
  (_in_msys g = false -> _current_shell g = sh) /\
  (_in_msys g = true ->
     endswith (lower (_current_shell g)) ".exe" = true /\
     (endswith (lower sh) ".exe" = true -> _current_shell g = sh) /\
     (endswith (lower sh) ".exe" = false ->
        _current_shell g = sh +:+ ".exe")).
Proof.
  unfold module_init. intros H Hd. rewrite Hd in H.
  destruct (decide _); injection H as <-; simpl.
  - split; [discriminate|]. intros _.
    destruct (endswith (lower sh) ".exe") eqn:E.
    + split; [exact E|]. split; [reflexivity | discriminate].
    + split; [apply endswith_exe_appended|].
      split; [discriminate | reflexivity].
  - split; [reflexivity | discriminate].
Qed.

Lemma msys_shell_is_exe_witness :
  endswith (lower (_current_shell msys)) ".exe" = true.
Proof.
  apply (msys_shell_is_exe msys_environ msys "/bin/sh");
    [vm_compute; reflexivity | reflexivity | reflexivity].
Defined.

(** ** base.py: the command line *)

Lemma repeat_char_snoc (c : ascii) (n : nat) (s : string) :
  repeat_char c (S n) +:+ s = repeat_char c n +:+ String c s.
Proof.
  induction n as [|n IH]; [reflexivity|].
  change (String c (repeat_char c (S n) +:+ s)
          = String c (repeat_char c n +:+ String c s)).
  rewrite IH. reflexivity.
Qed.

Lemma quote_chars_plain (s : string) (bs : nat) :
  contains dquote s = false ->
  quote_chars s bs false = repeat_char backslash bs +:+ s.
Proof.
  revert bs. induction s as [|c s IH]; intros bs; simpl.
  - intros _. reflexivity.
  - intros H. apply orb_false_iff in H as [Hc Hs].
    destruct (Ascii.eqb c backslash) eqn:Hb.
    + apply Ascii.eqb_eq in Hb. subst c. rewrite IH by exact Hs.
      apply repeat_char_snoc.
    + rewrite Hc. rewrite (IH O) by exact Hs. reflexivity.
Qed.

Lemma quote_arg_plain (arg : string) : plain arg = true -> quote_arg arg = arg.
Proof.
  unfold plain, quote_arg. intros H.
  apply andb_true_iff in H as [H Hq]. apply andb_true_iff in H as [H Ht].
  apply andb_true_iff in H as [He Hs].
  apply negb_true_iff in Hq, Ht, He, Hs. rewrite Hs, Ht, He. simpl.
  apply (quote_chars_plain arg O Hq).
Qed.

Lemma list2cmdline_plain (seq : list string) :
  forallb plain seq = true -> list2cmdline seq = join " " seq.
Proof.
  unfold list2cmdline. intros H. f_equal.
  induction seq as [|a l IH]; simpl in *; [reflexivity|].
  apply andb_true_iff in H as [Ha Hl].
  rewrite quote_arg_plain by exact Ha. rewrite IH by exact Hl. reflexivity.
Qed.

(** X3: in MSYS, when no argument is empty or has a blank, a tab or a
    double quote in it, the command line given to the shell is the
    arguments joined by single blanks, with the slashes of the program
    turned; backslashes in the other arguments stay. *)
Theorem normalize_command_plain (g : globals) (arg0 : string)
    (rest : list string) :
  _in_msys g = true ->
  forallb plain (arg0 :: rest) = true ->
  _normalize_command g (arg0 :: rest) true
  = Returned [_current_shell g; "-c";
              join " " (replace backslash slash arg0 :: rest)].
Proof.
  intros Hm Hp. unfold _normalize_command. rewrite Hm. simpl negb.
  cbv iota. simpl orb. cbv iota.
  rewrite list2cmdline_plain; [reflexivity|].
  simpl in *. apply andb_true_iff in Hp as [Ha Hl]. rewrite Hl, andb_true_r.
  revert Ha. clear. unfold plain.
  assert (Hc : forall c, c <> backslash -> c <> slash ->
            contains c (replace backslash slash arg0) = contains c arg0).
  { intros c H1 H2. induction arg0 as [|x s IH]; simpl; [reflexivity|].
    rewrite IH. f_equal. destruct (Ascii.eqb x backslash) eqn:E.
    - apply Ascii.eqb_eq in E. subst x.
      transitivity false; [|symmetry]; apply Ascii.eqb_neq; congruence.
    - reflexivity. }
  rewrite !Hc by discriminate.
  destruct arg0; simpl; [discriminate | auto].
Qed.

Lemma normalize_command_plain_witness :
  _normalize_command msys ["C:\foo\bar.sh"; "a\b"; "c"] true
  = Returned ["/bin/sh.exe"; "-c"; "C:/foo/bar.sh a\b c"].
Proof.
  apply (normalize_command_plain msys "C:\foo\bar.sh" ["a\b"; "c"]);
    reflexivity.
Defined.

(** ** base.py: running a command *)

(** X4: [ignore_errors] covers the exit status only.  An empty argument
    vector fails the assertion before anything is logged or started, and
    an exception out of the process handler comes through [_run_command]
    with its frame added, whatever [ignore_errors] says. *)
Theorem run_command_failures (g : globals)
    (ProcessHandlerMixin :
       list string -> option string -> gmap string string ->
       (string -> World -> World * outcome unit) -> bool ->
       World -> World * outcome Z)
    (args : list string) (o : run_options) (w : World)
    (command : list string) (w' : World) (e : pyexc) (tb : list frame) :
  _normalize_command g args (require_unix_environment o) = Returned command ->
  ProcessHandlerMixin command (cwd o) (use_env o w) (handleLine o)
    (ignore_children o) (before_process command o w)
  = (w', Raised e tb) ->
  _run_command g ProcessHandlerMixin args o w
  = (w', Raised e (at_line base_py 190 "_run_command" :: tb)) /\
  _run_command g ProcessHandlerMixin [] o w
  = (w, raise AssertionError EmptyString
          [at_line base_py 158 "_run_command";
           at_line base_py 208 "_normalize_command"]).
Proof.
  intros Hn Hp. split; [|reflexivity].
  unfold _run_command. rewrite Hn. unfold before_process in Hp.
  change (use_env o (log_event INFO "process" (ParamArgs command)
                       (join " " command) w))
    with (use_env o w) in *.
  rewrite Hp. reflexivity.
Qed.

Lemma run_command_failures_witness :
  exists w',
    flash posix missing "/B2G" "gaia" None fresh
    = (w', raise OSError "No such file or directory"
             [at_line flash_py 30 "flash"; at_line base_py 190 "_run_command";
              at_line "mozprocess/processhandler.py" 0 "run"]).
Proof.
  eexists. unfold flash, returning.
  destruct (run_command_failures posix missing ["/B2G/flash.sh"; "gaia"]
              (options "mach.commands.flash") fresh _ _ _ _ eq_refl eq_refl)
    as [H _].
  change (flash_args "/B2G" "gaia" None) with ["/B2G/flash.sh"; "gaia"].
  rewrite H. reflexivity.
Defined.

(** X5: a non-empty [explicit_env] is the whole environment of the
    process: [os.environ] and [append_env] are left out.  Without one, or
    with an empty one, every variable of [append_env] goes over the one of
    [os.environ] and the others are those of [os.environ]. *)
Theorem use_env_merge (o : run_options) (w : World) :
  (forall env, explicit_env o = Some env -> env <> ∅ -> use_env o w = env) /\
  (explicit_env o = None \/ explicit_env o = Some ∅ ->
   forall k,
     use_env o w !! k
     = match append_env o ≫= (fun env => env !! k) with
       | Some v => Some v
       | None => environ w !! k
       end).
Proof.
  unfold use_env. split.
  - intros env -> Hne. simpl. rewrite bool_decide_eq_false_2 by exact Hne.
    reflexivity.
  - intros He k.
    assert (Hf : dict_truthy (explicit_env o) = false).
    { destruct He as [-> | ->]; [reflexivity|]. simpl.
      rewrite bool_decide_eq_true_2; reflexivity. }
    rewrite Hf. destruct (append_env o) as [a|]; simpl; [|reflexivity].
    destruct (bool_decide (a = ∅)) eqn:Ha; simpl.
    + apply bool_decide_eq_true_1 in Ha. subst a. rewrite lookup_empty.
      reflexivity.
    + rewrite lookup_union. destruct (a !! k), (environ w !! k); reflexivity.
Qed.

(** X6: [handleLine] calls the line callback before it logs; a callback
    that raises leaves the line unlogged and the exception gains the frame
    of [handleLine].  With no callback and no log name it changes nothing. *)
Theorem handleLine_callback_first (o : run_options)
    (h : string -> World -> World * outcome unit) (line : string)
    (w w' : World) :
  line_handler o = Some h ->
  (forall e tb, h line w = (w', Raised e tb) ->
     handleLine o line w
     = (w', Raised e (at_line base_py 169 "handleLine" :: tb))) /\
  (h line w = (w', Returned tt) -> forall name,
     log_name o = Some name -> name <> EmptyString ->
     handleLine o line w
     = (log_event (log_level o) name (ParamLine (strip line)) "{line}" w',
        Returned tt)) /\
  (h line w = (w', Returned tt) ->
     log_name o = None \/ log_name o = Some EmptyString ->
     handleLine o line w = (w', Returned tt)).
Proof.
  intros Hh. unfold handleLine. rewrite Hh. split; [|split].
  - intros e tb ->. reflexivity.
  - intros -> name -> Hne. simpl.
    apply String.eqb_neq in Hne. rewrite Hne. reflexivity.
  - intros -> [-> | ->]; reflexivity.
Qed.

Lemma handleLine_callback_first_witness :
  let o := {| cwd := None; append_env := None; explicit_env := None;
              log_name := Some "build"; log_level := INFO;
              line_handler := Some (fun _ w => (w, Returned tt));
              require_unix_environment := false; ignore_errors := false;
              ignore_children := false |} in
  let line := String "028" ("  done  " +:+ String "031" EmptyString) in
  log (fst (handleLine o line fresh))
  = [{| lr_level := INFO; lr_action := "build";
        lr_params := ParamLine "done"; lr_format := "{line}" |}].
Proof.
  intros o line.
  destruct (handleLine_callback_first o (fun _ w => (w, Returned tt))
              line fresh fresh eq_refl) as (_ & H & _).
  rewrite (H eq_refl "build" eq_refl); [reflexivity | discriminate].
Defined.

(** ** base.py: the decorators and the class scan *)

(** X7: [Command] can stand anywhere among the [CommandArgument] lines of
    a handler: the function that results is the same as with [Command]
    on top. *)
Theorem Command_anywhere (command : decl) (above below : list decl)
    (f : function) :
  decorated (map CommandArgument above ++
             Command command :: map CommandArgument below) f
  = decorated (Command command :: map CommandArgument (above ++ below)) f.
Proof.
  induction above as [|d above IH]; [reflexivity|].
  change (CommandArgument d
            (decorated (map CommandArgument above ++
                        Command command :: map CommandArgument below) f)
          = Command command
              (CommandArgument d
                 (decorated (map CommandArgument (above ++ below)) f))).
  rewrite IH. reflexivity.
Qed.

Lemma provide_attr_entry (cls : pyclass) (attr : string) (w : World) :
  provide_attr cls attr w
  = match provided_entry cls attr with
    | Some he => set_class_handlers (class_handlers w ++ [he]) w
    | None => w
    end.
Proof.
  unfold provide_attr, provided_entry.
  destruct (cls_dict cls !! attr) as [[value|]|]; [|reflexivity..].
  destruct (_mach_command value) as [[]|]; reflexivity.
Qed.

Lemma provide_all (cls : pyclass) (attrs : list string) (w : World) :
  fold_left (fun w attr => provide_attr cls attr w) attrs w
  = set_class_handlers (class_handlers w ++ omap (provided_entry cls) attrs) w.
Proof.
  revert w. induction attrs as [|attr attrs IH]; intros w; simpl.
  - rewrite app_nil_r. destruct w; reflexivity.
  - rewrite IH, provide_attr_entry.
    destruct (provided_entry cls attr) as [he|]; [|reflexivity].
    simpl. rewrite <- app_assoc. reflexivity.
Qed.

Lemma provided_entry_method (cls : pyclass) (attr : string)
    (he : handler_entry) :
  provided_entry cls attr = Some he ->
  he_method he = attr /\ he_cls he = cls_name cls /\
  exists value,
    cls_dict cls !! attr = Some (AttrFunction value) /\
    _mach_command value = Some (he_parser_args he) /\
    he_arguments he = default [] (_mach_command_args value).
Proof.
  unfold provided_entry.
  destruct (cls_dict cls !! attr) as [[value|]|]; try discriminate.
  destruct (_mach_command value) as [pa|] eqn:E; [|discriminate].
  intros [= <-]. simpl. split; [reflexivity|]. split; [reflexivity|].
  exists value. auto.
Qed.

Lemma provided_methods (cls : pyclass) (attrs : list string) :
  map he_method (omap (provided_entry cls) attrs)
  = List.filter (fun attr => bool_decide (is_Some (provided_entry cls attr)))
      attrs.
Proof.
  induction attrs as [|attr attrs IH]; [reflexivity|].
  cbn [omap list_omap List.filter].
  destruct (provided_entry cls attr) as [he|] eqn:E.
  - rewrite bool_decide_eq_true_2 by eauto.
    apply provided_entry_method in E as [<- _].
    cbn [map]. f_equal. exact IH.
  - rewrite bool_decide_eq_false_2 by (intros [? [=]]). exact IH.
Qed.

Lemma StronglySorted_filter {A} (R : A -> A -> Prop) (f : A -> bool)
    (l : list A) :
  StronglySorted R l -> StronglySorted R (List.filter f l).
Proof.
  induction 1 as [|x l Hs IH Hall]; simpl; [constructor|].
  destruct (f x); [|exact IH]. constructor; [exact IH|].
  apply List.Forall_forall. intros y Hy. apply filter_In in Hy as [Hy _].
  revert y Hy. apply List.Forall_forall. exact Hall.
Qed.

Lemma filter_sublist_bool {A} (f : A -> bool) (l : list A) :
  sublist (List.filter f l) l.
Proof.
  induction l as [|x l IH]; simpl; [constructor|].
  destruct (f x); [apply sublist_skip | apply sublist_cons]; exact IH.
Qed.

Lemma sorted_keys_sorted (cls : pyclass) :
  StronglySorted String.le (sorted_keys cls) /\ NoDup (sorted_keys cls).
Proof.
  unfold sorted_keys. split.
  - apply StronglySorted_merge_sort; apply _.
  - rewrite merge_sort_Permutation. apply NoDup_fst_map_to_list.
Qed.

(** X8: [CommandProvider] adds to the end of the registry one entry for
    every attribute of the class that is a function with a [Command]
    declaration, and changes nothing else; the entries come in the order
    of the attribute names, no name twice, each with the declaration and
    the argument specs of its function.  Functions without [Command] and
    attributes that are no functions are passed over. *)
Theorem CommandProvider_registers (cls : pyclass) (w : World) :
  CommandProvider cls w
  = set_class_handlers (class_handlers w ++ provided cls) w /\
  StronglySorted String.le (map he_method (provided cls)) /\
  NoDup (map he_method (provided cls)) /\
  (forall he, he ∈ provided cls ->
     he_cls he = cls_name cls /\
     exists value,
       cls_dict cls !! he_method he = Some (AttrFunction value) /\
       _mach_command value = Some (he_parser_args he) /\
       he_arguments he = default [] (_mach_command_args value)) /\
  (forall attr value,
     cls_dict cls !! attr = Some (AttrFunction value) ->
     is_Some (_mach_command value) ->
     attr ∈ map he_method (provided cls)).
Proof.
  destruct (sorted_keys_sorted cls) as [Hs Hn].
  split; [apply provide_all|]. unfold provided. rewrite provided_methods.
  split; [|split; [|split]].
  - apply StronglySorted_filter, Hs.
  - exact (sublist_NoDup _ _ Hn (filter_sublist_bool _ _)).
  - intros he Hin. apply list_elem_of_omap in Hin as (attr & _ & E).
    apply provided_entry_method in E as (<- & Hc & Hv). auto.
  - intros attr value Hl [pa Hp]. apply list_elem_of_In, filter_In. split.
    + apply list_elem_of_In. unfold sorted_keys.
      rewrite merge_sort_Permutation.
      apply (list_elem_of_fmap_2 fst _ (attr, AttrFunction value)).
      apply elem_of_map_to_list. exact Hl.
    + apply bool_decide_eq_true_2. unfold provided_entry.
      rewrite Hl, Hp. eauto.
Qed.

(** ** main.py: around the dispatch *)

(** X9: stripping is idempotent, takes nothing but reserved keys away and
    adds nothing: a stripped namespace is a part of the parsed one, and a
    namespace of reserved keys only strips to the empty one. *)
Theorem stripped_idempotent (args : namespace) :
  stripped (stripped args) = stripped args /\
  stripped args ⊆ args /\
  ((forall k, is_Some (args !! k) -> k ∈ CONSUMED_ARGUMENTS) ->
   stripped args = ∅) /\
  ((forall k, k ∈ CONSUMED_ARGUMENTS -> args !! k = None) ->
   stripped args = args).
Proof.
  split; [|split; [|split]].
  - apply map_eq. intros k. rewrite !stripped_lookup.
    destruct (decide _); reflexivity.
  - apply map_filter_subseteq.
  - intros H. apply map_empty. intros k. rewrite stripped_lookup.
    destruct (decide _) as [|Hk]; [reflexivity|].
    destruct (args !! k) eqn:E; [|reflexivity].
    exfalso. apply Hk, H. eauto.
  - intros H. apply map_eq. intros k. rewrite stripped_lookup.
    destruct (decide _) as [Hk|]; [|reflexivity]. symmetry. apply H, Hk.
Qed.

Section Around.

Variable argparse_format_help : parser -> reporter -> string.
Variable argparse_format_usage : parser -> reporter -> string.
Variable prog : string.
Variable format_exception_only : pyexc -> list string.
Variable format_list : list frame -> list string.
Variable method_of : string -> string -> option (string -> handler).
Variable function_of : string -> option handler.

Abbreviation dispatch'' := (dispatch format_exception_only format_list).
Abbreviation reported'' := (reported format_exception_only format_list).
Abbreviation _run'' :=
  (_run argparse_format_help argparse_format_usage prog
     format_exception_only format_list method_of function_of).
Abbreviation run'' :=
  (run argparse_format_help argparse_format_usage prog
     format_exception_only format_list method_of function_of).
Abbreviation run_body'' :=
  (run_body argparse_format_help argparse_format_usage prog
     format_exception_only format_list method_of function_of).
Abbreviation prepare'' :=
  (prepare argparse_format_help argparse_format_usage prog method_of
     function_of).

(** X10: without arguments [_run] prints the usage, with [help] as the
    first argument the full help, both on [sys.stdout]; it returns 0,
    looks at no further argument, calls no handler and changes nothing
    else.  When the help text cannot be rendered, the failed assertion of
    [format_help] comes out of [_run]. *)
Theorem usage_and_help (cwd : string) (rest : list string) (w : World) :
  _run'' cwd [] w
  = (write (sys_stdout w)
       (argparse_format_usage (set_usage USAGE (get_argument_parser w))
          TopLevel) w,
     Returned (PyInt 0)) /\
  (forall text,
     format_help argparse_format_help (get_argument_parser w) TopLevel
     = Returned text ->
     _run'' cwd ("help" :: rest) w
     = (write (sys_stdout w) text w, Returned (PyInt 0))) /\
  (forall e tb,
     format_help argparse_format_help (get_argument_parser w) TopLevel
     = Raised e tb ->
     _run'' cwd ("help" :: rest) w
     = (w, Raised e (at_line main_py 217 "_run" ::
                     at_line "argparse.py" 0 "print_help" :: tb))).
Proof.
  split; [reflexivity|]. split.
  - intros text H. unfold _run. rewrite String.eqb_refl.
    unfold print_help, eval, bind. rewrite H. reflexivity.
  - intros e tb H. unfold _run. rewrite String.eqb_refl.
    unfold print_help, eval, bind. rewrite H. reflexivity.
Qed.


(** X12: when an [Exception] reaches the [except] clause of [_run] with
    no frame beyond the dispatcher's, as for a handler called with a
    keyword it does not take, or for the failed assertion on the result,
    the lookup of the first frame fails: nothing is printed and [_run]
    raises [IndexError] instead of returning 1. *)
Theorem dispatch_without_handler_frame (argv : list string) (fn : handler)
    (kwargs : namespace) (w w' : World) :
  ((exists e, is_Exception (exc_type e) = true /\
              fn kwargs w = (w', Raised e [])) \/
   (exists v, truthy v = true /\ isinstance_int v = false /\
              fn kwargs w = (w', Returned v))) ->
  dispatch'' argv fn kwargs w
  = (w', raise IndexError "list index out of range"
           [at_line main_py 274 "_run"]).
Proof.
  unfold dispatch, try_body.
  intros [(e & He & ->) | (v & Ht & Hi & ->)].
  - rewrite He. destruct (exc_type e); try discriminate He; reflexivity.
  - rewrite Ht. simpl. rewrite Hi. reflexivity.
Qed.

Lemma write_frame (fh : sys_stream) (text : string) (w : World) :
  same_but_console w (write fh text w) /\
  console (write fh text w) = console w ++ [Wrote fh text].
Proof. unfold same_but_console. simpl. auto 12. Qed.

Lemma same_but_console_trans (w1 w2 w3 : World) :
  same_but_console w1 w2 -> same_but_console w2 w3 -> same_but_console w1 w3.
Proof.
  unfold same_but_console.
  intros (?&?&?&?&?&?&?&?&?) (?&?&?&?&?&?&?&?&?).
  repeat split; congruence.
Qed.

Lemma write_lines_frame (fh : sys_stream) (lines : list string) (w : World) :
  same_but_console w (fold_left (fun w l => write fh l w) lines w) /\
  console (fold_left (fun w l => write fh l w) lines w)
  = console w ++ map (Wrote fh) lines.
Proof.
  revert w. induction lines as [|l lines IH]; intros w; simpl.
  - rewrite app_nil_r. unfold same_but_console. auto 12.
  - destruct (IH (write fh l w)) as [Hs Hc]. split.
    + eapply same_but_console_trans; [apply write_frame | exact Hs].
    + rewrite Hc. simpl. rewrite <- app_assoc. reflexivity.
Qed.

Lemma print_error_header_frame (argv : list string) (fh : sys_stream)
    (w : World) :
  same_but_console w (_print_error_header argv fh w) /\
  console (_print_error_header argv fh w)
  = console w ++
    map (Wrote fh) ["Error running mach:" +:+ newline +:+ newline; "    ";
                    repr_list argv; newline +:+ newline].
Proof.
  unfold _print_error_header, same_but_console. simpl.
  rewrite <- !app_assoc. auto 12.
Qed.

Lemma print_exception_frame (fh : sys_stream) (e : pyexc)
    (stack : list frame) (w : World) :
  same_but_console w
    (_print_exception format_exception_only format_list fh e stack w) /\
  console (_print_exception format_exception_only format_list fh e stack w)
  = console w ++
    map (Wrote fh)
      ([ERROR_FOOTER; newline] ++ format_exception_only e ++
       [newline] ++ format_list stack).
Proof.
  unfold _print_exception.
  set (w1 := write fh newline (write fh ERROR_FOOTER w)).
  destruct (write_lines_frame fh (format_exception_only e) w1) as [Hs1 Hc1].
  set (w2 := fold_left (fun w l => write fh l w) (format_exception_only e) w1)
    in *.
  destruct (write_lines_frame fh (format_list stack) (write fh newline w2))
    as [Hs2 Hc2].
  split.
  - eapply same_but_console_trans; [|exact Hs2].
    eapply same_but_console_trans; [|apply write_frame].
    eapply same_but_console_trans; [|exact Hs1].
    unfold w1, same_but_console. simpl. auto 12.
  - rewrite Hc2. simpl console. rewrite Hc1. unfold w1. simpl console.
    rewrite !map_app. simpl map. rewrite <- !app_assoc. reflexivity.
Qed.

(** X13: the report of a handler's failure goes to [sys.stdout], none of
    it to [sys.stderr]; it leaves the streams, the environment, the
    registry and the log as they were, and what was written before stays. *)
Theorem report_on_stdout (argv : list string) (e : pyexc)
    (stack : list frame) (banner : string) (w : World) :
  same_but_console w (reported'' argv e stack banner w) /\
  console (reported'' argv e stack banner w)
  = console w ++
    map (Wrote (sys_stdout w))
      (["Error running mach:" +:+ newline +:+ newline; "    ";
        repr_list argv; newline +:+ newline; banner +:+ newline;
        ERROR_FOOTER; newline] ++ format_exception_only e ++
       [newline] ++ format_list stack).
Proof.
  unfold reported.
  destruct (print_error_header_frame argv (sys_stdout w) w) as [Hs1 Hc1].
  set (w1 := _print_error_header argv (sys_stdout w) w) in *.
  assert (Hout : sys_stdout w1 = sys_stdout w) by apply Hs1.
  destruct (write_frame (sys_stdout w1) (banner +:+ newline) w1)
    as [Hs2 Hc2].
  destruct (print_exception_frame (sys_stdout w) e stack (print banner w1))
    as [Hs3 Hc3].
  unfold print in *.
  split.
  - eapply same_but_console_trans; [exact Hs1|].
    eapply same_but_console_trans; [exact Hs2 | exact Hs3].
  - rewrite Hc3. unfold newline in *. rewrite Hc2, Hc1, Hout. simpl map. rewrite <- !app_assoc.
    reflexivity.
Qed.

End Around.

Section Outer.

Variable argparse_format_help : parser -> reporter -> string.
Variable argparse_format_usage : parser -> reporter -> string.
Variable prog : string.
Variable format_exception_only : pyexc -> list string.
Variable format_list : list frame -> list string.
Variable method_of : string -> string -> option (string -> handler).
Variable function_of : string -> option handler.

Abbreviation run''' :=
  (run argparse_format_help argparse_format_usage prog
     format_exception_only format_list method_of function_of).
Abbreviation run_body''' :=
  (run_body argparse_format_help argparse_format_usage prog
     format_exception_only format_list method_of function_of).
Abbreviation _run''' :=
  (_run argparse_format_help argparse_format_usage prog
     format_exception_only format_list method_of function_of).
Abbreviation prepare''' :=
  (prepare argparse_format_help argparse_format_usage prog method_of
     function_of).

Lemma run_unfold (cwd : string) (argv : list string)
    (stdin stdout stderr : option sys_stream) (w : World) :
  run''' cwd argv stdin stdout stderr w
  = (let '(w1, r) :=
       run_body''' cwd argv (default (sys_stdin w) stdin)
         (default (sys_stdout w) stdout) (default (sys_stderr w) stderr)
         (entered stdin stdout stderr w) in
     match r with
     | Returned v => (restored w w1, Returned v)
     | Raised e tb =>
         if is_KeyboardInterrupt (exc_type e) then
           (restored w
              (print "mach interrupted by signal or user action. Stopping."
                 w1),
            Returned (PyInt 1))
         else if is_Exception (exc_type e) then
           (restored w
              (_print_exception format_exception_only format_list
                 (sys_stdout w1) e tb
                 (print MACH_ERROR
                    (_print_error_header argv (sys_stdout w1) w1))),
            Returned (PyInt 1))
         else (restored w w1, Raised e tb)
     end).
Proof.
  unfold run, entered, restored. cbv zeta.
  destruct (run_body _ _ _ _ _ _ _ _ _ _ _ _ _) as [w1 [v|e tb]];
    [reflexivity|].
  destruct (is_KeyboardInterrupt (exc_type e)); [reflexivity|].
  destruct (is_Exception (exc_type e)); reflexivity.
Qed.

(** X14: [run] lets no [Exception] and no [KeyboardInterrupt] out: it
    returns, or it raises an exception that is neither (a [SystemExit]
    from the parser or from a handler, say). *)
Theorem run_contains_exceptions (cwd : string) (argv : list string)
    (stdin stdout stderr : option sys_stream) (w : World) :
  match snd (run''' cwd argv stdin stdout stderr w) with
  | Returned _ => True
  | Raised e _ =>
      is_Exception (exc_type e) = false /\
      is_KeyboardInterrupt (exc_type e) = false
  end.
Proof.
  rewrite run_unfold.
  destruct (run_body _ _ _ _ _ _ _ _ _ _ _ _ _) as [w1 [v|e tb]];
    [exact I|].
  destruct (is_KeyboardInterrupt (exc_type e)) eqn:Hk; [exact I|].
  destruct (is_Exception (exc_type e)) eqn:He; [exact I|].
  simpl. auto.
Qed.

(** What [run] makes of an exception that comes out of [_run]: a
    [KeyboardInterrupt] becomes one line on [sys.stdout] and exit code 1,
    without a traceback; an [Exception] becomes the header, the
    [MACH_ERROR] banner and the whole traceback, and exit code 1. *)
Lemma run_converts (cwd : string) (argv : list string)
    (stdin stdout stderr : option sys_stream) (w w1 : World) (e : pyexc)
    (tb : list frame) :
  run_body''' cwd argv (default (sys_stdin w) stdin)
    (default (sys_stdout w) stdout) (default (sys_stderr w) stderr)
    (entered stdin stdout stderr w) = (w1, Raised e tb) ->
  (is_KeyboardInterrupt (exc_type e) = true ->
   run''' cwd argv stdin stdout stderr w
   = (restored w
        (print "mach interrupted by signal or user action. Stopping." w1),
      Returned (PyInt 1))) /\
  (is_Exception (exc_type e) = true ->
   run''' cwd argv stdin stdout stderr w
   = (restored w
        (_print_exception format_exception_only format_list (sys_stdout w1)
           e tb
           (print MACH_ERROR (_print_error_header argv (sys_stdout w1) w1))),
      Returned (PyInt 1))) /\
  (is_Exception (exc_type e) = false ->
   is_KeyboardInterrupt (exc_type e) = false ->
   run''' cwd argv stdin stdout stderr w = (restored w w1, Raised e tb)).
Proof.
  intros H. rewrite run_unfold, H. split; [|split].
  - intros ->. reflexivity.
  - intros He. rewrite He.
    destruct (exc_type e); try discriminate He; reflexivity.
  - intros -> ->. reflexivity.
Qed.

(** X15: a stream without an [encoding] attribute, given to [run] or
    found in [sys], is an [AttributeError] inside the [try] of [run]:
    [_run] is not reached, the failure is reported as an error of mach
    itself and [run] returns 1. *)
Theorem run_stream_without_encoding (cwd : string) (argv : list string)
    (stdin stdout stderr : option sys_stream) (w : World) :
  encoding (default (sys_stdin w) stdin) = None ->
  let w0 := entered stdin stdout stderr w in
  let e := {| exc_type := AttributeError; exc_value := PyStr "encoding" |} in
  run''' cwd argv stdin stdout stderr w
  = (restored w
       (_print_exception format_exception_only format_list (sys_stdout w0)
          e [at_line main_py 170 "run"]
          (print MACH_ERROR (_print_error_header argv (sys_stdout w0) w0))),
     Returned (PyInt 1)).
Proof.
  intros H w0 e. rewrite run_unfold. fold w0.
  unfold run_body, bind. rewrite H. reflexivity.
Qed.


Lemma run_body_streams (cwd : string) (argv : list string)
    (stdin stdout stderr : sys_stream) (w : World) :
  encoding stdin <> None -> encoding stdout <> None ->
  encoding stderr <> None ->
  run_body''' cwd argv stdin stdout stderr w
  = (let '(w', r) := _run''' cwd argv (with_codecs stdin stdout stderr w) in
     (w', called_at (at_line main_py 179 "run") r)).
Proof.
  intros Hi Ho He. unfold run_body, with_codecs, with_codec, bind, ret, exec.
  destruct (encoding stdin) as [[?|]|]; [| |congruence];
    destruct (encoding stdout) as [[?|]|]; try congruence;
    destruct (encoding stderr) as [[?|]|]; try congruence; reflexivity.
Qed.

(** X16: with streams that have an [encoding] attribute, [_run] runs in
    a world where each stream whose encoding is [None] is wrapped in a
    UTF-8 codec and the others are the streams themselves; a handler that
    returns an integer [n] makes [run] return [n], one that is
    interrupted makes [run] print one line and return 1; the streams of
    the caller are back in place both times. *)
Theorem run_handler_outcomes (cwd : string) (argv : list string)
    (stdin stdout stderr : option sys_stream) (w w1 w2 : World)
    (t : target) (fn : handler) (kwargs : namespace) :
  let si := default (sys_stdin w) stdin in
  let so := default (sys_stdout w) stdout in
  let se := default (sys_stderr w) stderr in
  encoding si <> None -> encoding so <> None -> encoding se <> None ->
  (exists arg0 rest, argv = arg0 :: rest /\ arg0 <> "help") ->
  prepare''' cwd argv (with_codecs si so se (entered stdin stdout stderr w))
  = (w1, Returned (t, fn, kwargs)) ->
  (forall n, fn kwargs w1 = (w2, Returned (PyInt n)) ->
     run''' cwd argv stdin stdout stderr w
     = (restored w w2, Returned (PyInt n))) /\
  (forall e tb, fn kwargs w1 = (w2, Raised e tb) ->
     is_KeyboardInterrupt (exc_type e) = true ->
     run''' cwd argv stdin stdout stderr w
     = (restored w
          (print "mach interrupted by signal or user action. Stopping." w2),
        Returned (PyInt 1))).
Proof.
  intros si so se Hi Ho He (arg0 & rest & -> & Hne) Hp.
  apply String.eqb_neq in Hne.
  assert (Hrun : _run''' cwd (arg0 :: rest)
                   (with_codecs si so se (entered stdin stdout stderr w))
                 = dispatch format_exception_only format_list (arg0 :: rest)
                     fn kwargs w1).
  { unfold _run. rewrite Hne. unfold bind. rewrite Hp. reflexivity. }
  split.
  - intros n Hfn. rewrite run_unfold.
    rewrite (run_body_streams _ _ _ _ _ _ Hi Ho He), Hrun.
    unfold dispatch, try_body. rewrite Hfn. simpl.
    destruct (Z.eqb_spec n 0) as [->|]; reflexivity.
  - intros e tb Hfn Hk. rewrite run_unfold.
    rewrite (run_body_streams _ _ _ _ _ _ Hi Ho He), Hrun.
    unfold dispatch, try_body. rewrite Hfn, Hk. simpl. rewrite Hk.
    reflexivity.
Qed.

Lemma resolve_world (cwd : string) (args : namespace) (w w' : World)
    (r : outcome (target * handler)) :
  resolve method_of function_of cwd args w = (w', r) -> w' = w.
Proof.
  unfold resolve, bind, getattr, ret, fail.
  destruct (args !! "cls") as [[]|].
  10:{ destruct (args !! "func") as [[]|]; try (intros [= <- _]; reflexivity).
       destruct (function_of name); intros [= <- _]; reflexivity. }
  all: try (intros [= <- _]; reflexivity).
  destruct (args !! "method") as [[]|]; try (intros [= <- _]; reflexivity).
  destruct (method_of name s); intros [= <- _]; reflexivity.
Qed.

(** X17: by the time a handler is resolved, terminal logging is
    switched on, at [DEBUG] when [verbose] is set and at [INFO] otherwise,
    and the log file, when there is one, has been added as a JSON handler
    after those already there; nothing has been printed and the registry
    and the log are untouched. *)
Theorem prepare_configures_logging (cwd : string) (argv : list string)
    (w w' : World) (t : target) (fn : handler) (kwargs : namespace) :
  prepare''' cwd argv w = (w', Returned (t, fn, kwargs)) ->
  exists w0 args verbose logfile log_interval,
    parse_args
      (@error argparse_format_help argparse_format_usage prog _
         (get_argument_parser w))
      (print_help argparse_format_help (get_argument_parser w))
      (get_argument_parser w) argv w = (w0, Returned args) /\
    args !! "verbose" = Some verbose /\
    args !! "logfile" = Some logfile /\
    args !! "log_interval" = Some log_interval /\
    terminal_logging w'
    = Some (if truthy verbose then DEBUG else INFO, log_interval) /\
    json_handlers w'
    = json_handlers w0 ++ (if truthy logfile then [logfile] else []) /\
    console w' = console w0 /\ log w' = log w0 /\
    class_handlers w' = class_handlers w0.
Proof.
  unfold prepare, bind.
  destruct (parse_args _ _ _ argv w) as [w0 [args|e tb]]; simpl;
    [|discriminate].
  intros H. exists w0, args.
  unfold getattr, ret, fail, exec in H.
  destruct (args !! "logfile") as [logfile|]; [|discriminate].
  destruct (args !! "verbose") as [verbose|] eqn:Hv.
  2:{ destruct (truthy logfile); discriminate. }
  destruct (args !! "log_interval") as [interval|] eqn:Hi.
  2:{ destruct (truthy logfile); discriminate. }
  exists verbose, logfile, interval.
  split; [reflexivity|]. split; [reflexivity|]. split; [reflexivity|].
  split; [reflexivity|].
  destruct (truthy logfile); simpl in H;
    match type of H with
    | (let (_, _) := ?R in _) = _ =>
        destruct R as [w2 [[t' fn']|]] eqn:Hr
    end; simpl in H; try discriminate H;
    injection H as <- _ _ _; apply resolve_world in Hr; subst w2; simpl;
    rewrite ?app_nil_r; auto 10.
Qed.

End Outer.

(** ** main.py: the scan for command modules *)

Section Scan.

Variable sys_path : list string.
Variable isdir : string -> bool.
Variable listdir : string -> list string.
Variable load_source : string -> string -> M unit.

Lemma bind_ext {A B} (m m' : M A) (k : A -> M B) (w : World) :
  m w = m' w -> bind m k w = bind m' k w.
Proof. unfold bind. intros ->. reflexivity. Qed.

Lemma bind_ret_tt (m : M unit) (w : World) :
  bind m (fun _ => ret tt) w = m w.
Proof. unfold bind, ret. destruct (m w) as [w' [[]|e tb]]; reflexivity. Qed.

Lemma fold_bind_ext {F} (k : F -> M unit) (files : list F) (m m' : M unit) :
  (forall w, m w = m' w) ->
  forall w,
    fold_left (fun (m : M unit) f => m ;;; k f) files m w
    = fold_left (fun (m : M unit) f => m ;;; k f) files m' w.
Proof.
  revert m m'. induction files as [|f files IH]; intros m m' H w; simpl.
  - apply H.
  - apply IH. intros w0. apply bind_ext, H.
Qed.

Lemma fold_bind_raised {F} (k : F -> M unit) (files : list F) (m : M unit)
    (w w' : World) (e : pyexc) (tb : list frame) :
  m w = (w', Raised e tb) ->
  fold_left (fun (m : M unit) f => m ;;; k f) files m w = (w', Raised e tb).
Proof.
  revert m. induction files as [|f files IH]; intros m H; simpl.
  - exact H.
  - apply IH. unfold bind. rewrite H. reflexivity.
Qed.

Lemma skip_or_import (commands_path : string) (files : list string)
    (m : M unit) (w : World) :
  fold_left
    (fun (m : M unit) f =>
       m ;;;
       if negb (endswith f ".py") || String.eqb f "__init__.py" then ret tt
       else
         let full_path := path_join commands_path f in
         let module_name :=
           "mach.commands." +:+
           String.substring 0 (String.length f - 3) f in
         fun w =>
           let '(w, r) := load_source module_name full_path w in
           (w, called_at (at_line main_py 328 "_load_modules") r))
    files m w
  = fold_left
      (fun (m : M unit) f => m ;;; import_file load_source commands_path f)
      (List.filter is_module_file files) m w.
Proof.
  revert m w. induction files as [|f files IH]; intros m w; [reflexivity|].
  cbn [fold_left List.filter]. unfold is_module_file at 1.
  destruct (endswith f ".py"); simpl negb; simpl andb.
  - destruct (String.eqb f "__init__.py"); simpl negb; simpl orb; cbv iota.
    + rewrite IH. apply fold_bind_ext. intros w0. apply bind_ret_tt.
    + rewrite IH. reflexivity.
  - simpl orb. cbv iota. rewrite IH. apply fold_bind_ext. intros w0.
    apply bind_ret_tt.
Qed.

Lemma load_commands_import_each (commands_path : string) (w : World) :
  load_commands listdir load_source commands_path w
  = import_each load_source commands_path (module_files listdir commands_path)
      w.
Proof. apply skip_or_import. Qed.

(** X18: of a commands directory, [_load_modules] imports the files whose
    name ends in [.py], [__init__.py] apart, each once per listing, in the
    order of their names, and nothing else. *)
Theorem load_commands_files (commands_path : string) (w : World) :
  load_commands listdir load_source commands_path w
  = import_each load_source commands_path (module_files listdir commands_path)
      w /\
  StronglySorted String.le (module_files listdir commands_path) /\
  (forall f, f ∈ module_files listdir commands_path <->
     f ∈ listdir commands_path /\ endswith f ".py" = true /\
     f <> "__init__.py").
Proof.
  split; [apply load_commands_import_each|]. unfold module_files. split.
  - apply StronglySorted_filter, StronglySorted_merge_sort; apply _.
  - intros f. rewrite list_elem_of_In, filter_In, <- list_elem_of_In.
    rewrite merge_sort_Permutation. unfold is_module_file.
    rewrite andb_true_iff, negb_true_iff, String.eqb_neq. tauto.
Qed.

Lemma fold_bind_start {F} (k : F -> M unit) (files : list F) (m : M unit)
    (w : World) :
  fold_left (fun (m : M unit) f => m ;;; k f) files m w
  = bind m
      (fun _ => fold_left (fun (m : M unit) f => m ;;; k f) files (ret tt)) w.
Proof.
  revert m w. induction files as [|f files IH]; intros m w; simpl.
  - symmetry. apply bind_ret_tt.
  - rewrite IH. unfold bind at 1 2 4.
    destruct (m w) as [w1 [[]|e tb]]; [|reflexivity].
    rewrite (IH (ret tt ;;; k f)). unfold bind at 2. unfold ret at 1.
    reflexivity.
Qed.

Lemma import_each_app (commands_path : string) (before after : list string)
    (w : World) :
  import_each load_source commands_path (before ++ after) w
  = bind (import_each load_source commands_path before)
      (fun _ => import_each load_source commands_path after) w.
Proof. unfold import_each. rewrite fold_left_app. apply fold_bind_start. Qed.

(** X19: the scan stops at the first module that cannot be imported: the
    exception comes out with the frame of [_load_modules] added, in the
    world that import left, and no later file is imported. *)
Theorem load_commands_fails_fast (commands_path : string)
    (before after : list string) (f : string) (w w1 w2 : World)
    (e : pyexc) (tb : list frame) :
  module_files listdir commands_path = before ++ f :: after ->
  import_each load_source commands_path before w = (w1, Returned tt) ->
  load_source
    ("mach.commands." +:+ String.substring 0 (String.length f - 3) f)
    (path_join commands_path f) w1 = (w2, Raised e tb) ->
  load_commands listdir load_source commands_path w
  = (w2, Raised e (at_line main_py 328 "_load_modules" :: tb)).
Proof.
  intros Hfiles Hbefore Hf.
  rewrite load_commands_import_each, Hfiles, import_each_app.
  unfold bind. rewrite Hbefore.
  unfold import_each. cbn [fold_left]. apply fold_bind_raised.
  unfold bind, ret, import_file. rewrite Hf. reflexivity.
Qed.

End Scan.

Section Guard.

Variable sys_path : list string.
Variable isdir : string -> bool.
Variable listdir : string -> list string.
Variable load_source : string -> string -> M unit.

Lemma bind_keeps_guard {A B} (m : M A) (k : A -> M B) :
  keeps_guard m -> (forall a, keeps_guard (k a)) -> keeps_guard (bind m k).
Proof.
  unfold keeps_guard, bind. intros Hm Hk w. specialize (Hm w).
  destruct (m w) as [w1 [a|e tb]]; simpl in *; [|exact Hm].
  rewrite Hk. exact Hm.
Qed.

Lemma ret_keeps_guard {A} (a : A) : keeps_guard (ret a).
Proof. intros w. reflexivity. Qed.

Lemma fold_keeps_guard {F} (k : F -> M unit) (files : list F) (m : M unit) :
  keeps_guard m -> (forall f, keeps_guard (k f)) ->
  keeps_guard (fold_left (fun (m : M unit) f => m ;;; k f) files m).
Proof.
  revert m. induction files as [|f files IH]; intros m Hm Hk; simpl.
  - exact Hm.
  - apply IH; [|exact Hk]. apply bind_keeps_guard; [exact Hm|].
    intros _. apply Hk.
Qed.

Lemma load_modules_keeps_guard :
  (forall name path, keeps_guard (load_source name path)) ->
  keeps_guard (_load_modules sys_path isdir listdir load_source).
Proof.
  intros H. unfold _load_modules.
  apply fold_keeps_guard; [apply ret_keeps_guard|]. intros path. cbv zeta.
  destruct (negb (isdir _)); [apply ret_keeps_guard|].
  unfold load_commands.
  apply fold_keeps_guard; [apply ret_keeps_guard|]. intros f.
  destruct (negb (endswith f ".py") || String.eqb f "__init__.py");
    [apply ret_keeps_guard|].
  cbv zeta. intros w. specialize (H ("mach.commands." +:+
      String.substring 0 (String.length f - 3) f)
      (path_join (path_join (path_join path "mach") "commands") f) w).
  destruct (load_source _ _ w) as [w1 r]. exact H.
Qed.

(** X20: a construction of [Mach] that fails does not set the guard.  With
    a working directory that is none, nothing is scanned and nothing
    changes; with a module that cannot be imported (importing a module
    does not touch the guard), the guard is still unset afterwards, so the
    next construction scans again. *)
Theorem init_failure_leaves_guard (cwd : string) (w w' : World) (e : pyexc)
    (tb : list frame) :
  (forall name path, keeps_guard (load_source name path)) ->
  __init__ sys_path isdir listdir load_source cwd w = (w', Raised e tb) ->
  MODULES_SCANNED w' = MODULES_SCANNED w /\
  (isdir cwd = false -> w' = w /\ exc_type e = AssertionError) /\
  (isdir cwd = true ->
   MODULES_SCANNED w = false /\
   _load_modules sys_path isdir listdir load_source w
   = (w', Raised e (List.tl tb))).
Proof.
  intros Hk. pose proof (load_modules_keeps_guard Hk w) as Hg.
  unfold __init__. destruct (isdir cwd); simpl.
  - unfold bind. destruct (MODULES_SCANNED w) eqn:Hs; simpl;
      [discriminate|].
    destruct (_load_modules _ _ _ _ w) as [w0 [[]|e0 tb0]]; simpl;
      [discriminate|].
    intros [= <- <- <-]. simpl in Hg. split; [rewrite Hg; reflexivity|].
    split; [discriminate|]. intros _. split; reflexivity.
  - unfold fail, raise. intros [= <- <- <-]. split; [reflexivity|].
    split; [auto | discriminate].
Qed.

End Guard.

Lemma CommandProvider_keeps_guard (cls : pyclass) :
  keeps_guard (exec (CommandProvider cls)).
Proof.
  intros w. unfold exec, CommandProvider. rewrite provide_all. reflexivity.
Qed.

Lemma broken_load_source_keeps_guard (name path : string) :
  keeps_guard (broken_load_source name path).
Proof.
  unfold broken_load_source, load_source.
  repeat match goal with
         | |- context [if ?b then _ else _] => destruct b
         end;
    first [apply CommandProvider_keeps_guard | intros w; reflexivity].
Qed.

Lemma init_failure_leaves_guard_witness :
  MODULES_SCANNED
    (fst (__init__ sys_path isdir listdir broken_load_source "/B2G" fresh))
  = false /\
  map he_cls
    (class_handlers
       (fst (__init__ sys_path isdir listdir broken_load_source "/B2G" fresh)))
  = ["Build"; "Emulator"].
Proof.
  destruct (__init__ sys_path isdir listdir broken_load_source "/B2G" fresh)
    as [w' [[]|e tb]] eqn:H.
  - exfalso. revert H. vm_compute. discriminate.
  - destruct (init_failure_leaves_guard sys_path isdir listdir
                broken_load_source "/B2G" fresh w' e tb
                broken_load_source_keeps_guard H) as [Hg _].
    split; [exact Hg|].
    revert H. vm_compute. intros [= <- _ _]. reflexivity.
Defined.

(** When the module has been repaired, the next construction scans the
    directory from its first file: the commands imported before the
    failure are in the registry twice. *)
Example rescan_after_failure :
  let w1 :=
    fst (__init__ sys_path isdir listdir broken_load_source "/B2G" fresh) in
  map he_cls
    (class_handlers (fst (__init__ sys_path isdir listdir load_source "/B2G" w1)))
  = ["Build"; "Emulator"; "Build"; "Emulator"; "Flash"].
Proof. vm_compute. reflexivity. Qed.

(** ** The handlers of the three commands *)

Lemma run_command_status (g : globals)
    (PHM : list string -> option string -> gmap string string ->
           (string -> World -> World * outcome unit) -> bool ->
           World -> World * outcome Z)
    (args : list string) (o : run_options) (w : World)
    (command : list string) (w' : World) (status : Z) :
  _normalize_command g args (require_unix_environment o) = Returned command ->
  PHM command (cwd o) (use_env o w) (handleLine o) (ignore_children o)
    (before_process command o w) = (w', Returned status) ->
  ignore_errors o = true ->
  _run_command g PHM args o w = (w', Returned status).
Proof.
  intros Hn Hp Hi. unfold _run_command. rewrite Hn.
  unfold before_process in Hp.
  change (use_env o (log_event INFO "process" (ParamArgs command)
                       (join " " command) w))
    with (use_env o w) in *.
  rewrite Hp, Hi. simpl. rewrite andb_false_r. reflexivity.
Qed.

(** X21: [build], [run-emulator] and [flash] hand the exit status of
    their script on, whatever it is: a script that fails is no exception,
    and the exit code of the dispatcher is the exit status of the script. *)
Theorem script_status_is_exit_code (g : globals)
    (PHM : list string -> option string -> gmap string string ->
           (string -> World -> World * outcome unit) -> bool ->
           World -> World * outcome Z)
    (fe : pyexc -> list string) (fl : list frame -> list string)
    (argv : list string) (kwargs : namespace)
    (file fname name : string) (line : Z) (args command : list string)
    (w w' : World) (status : Z) :
  _normalize_command g args true = Returned command ->
  PHM command None (environ w) (handleLine (options name)) false
    (before_process command (options name) w) = (w', Returned status) ->
  let fn : handler :=
    fun _ => returning file line fname (_run_command g PHM args (options name))
  in
  dispatch fe fl argv fn kwargs w = (w', Returned (PyInt status)) /\
  build g PHM = (fun self_cwd =>
    returning build_py 21 "build"
      (_run_command g PHM [path_join self_cwd "build.sh"]
         (options "mach.commands.build"))) /\
  run_emulator g PHM = (fun self_cwd =>
    returning emulator_py 21 "run_emulator"
      (_run_command g PHM [path_join self_cwd "run-emulator.sh"]
         (options "mach.commands.emulator"))) /\
  flash g PHM = (fun self_cwd project serial_number =>
    returning flash_py 30 "flash"
      (_run_command g PHM (flash_args self_cwd project serial_number)
         (options "mach.commands.flash"))).
Proof.
  intros Hn Hp fn. split; [|repeat split].
  unfold dispatch, try_body, fn, returning.
  rewrite (run_command_status g PHM args (options name) w command w' status
             Hn Hp eq_refl).
  simpl. destruct (Z.eqb_spec status 0) as [->|]; reflexivity.
Qed.

Lemma script_status_is_exit_code_witness :
  dispatch exception_only frame_lines ["build"]
    (call_build posix (quiet 2) "/B2G") ∅ fresh
  = (before_process ["/B2G/build.sh"] (options "mach.commands.build") fresh,
     Returned (PyInt 2)).
Proof.
  apply (script_status_is_exit_code posix (quiet 2) exception_only frame_lines
           ["build"] ∅ build_py "build" "mach.commands.build" 21
           ["/B2G/build.sh"] ["/B2G/build.sh"] fresh _ 2 eq_refl eq_refl).
Defined.

(** ** main.py: the help text *)

Lemma string_app_assoc (a b c : string) : (a +:+ b) +:+ c = a +:+ b +:+ c.
Proof.
  induction a as [|x a IH]; [reflexivity|].
  change (String x ((a +:+ b) +:+ c) = String x (a +:+ b +:+ c)).
  rewrite IH. reflexivity.
Qed.

Lemma string_app_nil_r (a : string) : a +:+ EmptyString = a.
Proof.
  induction a as [|x a IH]; [reflexivity|].
  change (String x (a +:+ EmptyString) = String x a). rewrite IH.
  reflexivity.
Qed.

Lemma string_length_app (a b : string) :
  String.length (a +:+ b) = (String.length a + String.length b)%nat.
Proof.
  induction a as [|x a IH]; [reflexivity|].
  change (S (String.length (a +:+ b))
          = S (String.length a + String.length b)).
  rewrite IH. reflexivity.
Qed.

Lemma get_contains (s : string) (i : nat) (c : ascii) :
  String.get i s = Some c -> contains c s = true.
Proof.
  revert i. induction s as [|x s IH]; intros i; simpl; [discriminate|].
  destruct i.
  - intros [= ->]. rewrite Ascii.eqb_refl. reflexivity.
  - intros H. rewrite (IH _ H). apply orb_true_r.
Qed.

Lemma contains_app (c : ascii) (a b : string) :
  contains c (a +:+ b) = contains c a || contains c b.
Proof.
  induction a as [|x a IH]; simpl; [reflexivity|].
  rewrite IH, orb_assoc. reflexivity.
Qed.

Lemma prefix_app (s t : string) : String.prefix s (s +:+ t) = true.
Proof.
  induction s as [|c s IH]; simpl.
  - destruct t; reflexivity.
  - destruct (ascii_dec c c); [exact IH | congruence].
Qed.

Lemma prefix_cons (a b : ascii) (s1 s2 : string) :
  String.prefix (String a s1) (String b s2)
  = if ascii_dec a b then String.prefix s1 s2 else false.
Proof. reflexivity. Qed.

Lemma prefix_first_char (a : ascii) (s1 : string) (x : ascii)
    (b t : string) :
  a <> x -> String.prefix (String a s1) (String x b +:+ t) = false.
Proof.
  intros Hne. change (String x b +:+ t) with (String x (b +:+ t)).
  rewrite prefix_cons. destruct (ascii_dec a x); [congruence | reflexivity].
Qed.

Lemma prefix_get (s1 s2 : string) (i : nat) (c : ascii) :
  String.prefix s1 s2 = true -> String.get i s1 = Some c ->
  String.get i s2 = Some c.
Proof.
  revert s2 i. induction s1 as [|a s1 IH]; intros s2 i; simpl;
    [discriminate|].
  destruct s2 as [|b s2]; simpl; [discriminate|].
  destruct (ascii_dec a b) as [->|]; [|discriminate].
  intros Hp. destruct i; [auto|]. apply IH, Hp.
Qed.

Lemma index_0_cons (s1 : string) (b : ascii) (s2 : string) :
  String.index 0 s1 (String b s2)
  = if String.prefix s1 (String b s2) then Some 0%nat
    else match String.index 0 s1 s2 with
         | Some n => Some (S n)
         | None => None
         end.
Proof. reflexivity. Qed.

Lemma index_first (s1 pre rest : string) :
  s1 <> EmptyString ->
  String.prefix s1 rest = true ->
  (forall a b, pre = a +:+ b -> b <> EmptyString ->
     String.prefix s1 (b +:+ rest) = false) ->
  String.index 0 s1 (pre +:+ rest) = Some (String.length pre).
Proof.
  intros Hne Hp. induction pre as [|c pre IH]; intros Hno.
  - change (EmptyString +:+ rest) with rest. destruct rest as [|b rest].
    + destruct s1; [congruence | discriminate Hp].
    + rewrite index_0_cons, Hp. reflexivity.
  - change (String c pre +:+ rest) with (String c (pre +:+ rest)).
    rewrite index_0_cons.
    change (String c (pre +:+ rest)) with (String c pre +:+ rest).
    rewrite (Hno EmptyString (String c pre) eq_refl) by discriminate.
    rewrite IH; [reflexivity|].
    intros a b -> Hb. apply (Hno (String c a) b eq_refl Hb).
Qed.

Lemma index_shift (a s1 s2 : string) :
  String.index (String.length a) s1 (a +:+ s2)
  = option_map (fun n => (String.length a + n)%nat) (String.index 0 s1 s2).
Proof.
  induction a as [|c a IH].
  - change (String.index 0 s1 s2
            = option_map (fun n => n) (String.index 0 s1 s2)).
    destruct (String.index 0 s1 s2); reflexivity.
  - change (match String.index (String.length a) s1 (a +:+ s2) with
            | Some n => Some (S n)
            | None => None
            end
            = option_map (fun n => S (String.length a + n))
                (String.index 0 s1 s2)).
    rewrite IH. destruct (String.index 0 s1 s2); reflexivity.
Qed.

Lemma substring_pre (a b : string) :
  String.substring 0 (String.length a) (a +:+ b) = a.
Proof.
  induction a as [|c a IH]; [destruct b; reflexivity|].
  change (String c (String.substring 0 (String.length a) (a +:+ b))
          = String c a).
  rewrite IH. reflexivity.
Qed.

Lemma substring_post (a b : string) :
  String.substring (String.length a)
    (String.length (a +:+ b) - String.length a) (a +:+ b) = b.
Proof.
  induction a as [|c a IH].
  - change (String.substring 0 (String.length b - 0) b = b).
    rewrite Nat.sub_0_r. rewrite <- (string_app_nil_r b) at 2.
    rewrite substring_pre. reflexivity.
  - exact IH.
Qed.

(** X22: for a help text of the form [pre], [Commands:] and a newline,
    two blanks, the choices in braces, a newline, [post], where [pre] has
    no opening brace and the choices have no closing one, [format_help]
    takes the line with the braces out and keeps all the rest. *)
Theorem format_help_strips_choices
    (argparse_format_help : parser -> reporter -> string) (p : parser)
    (who : reporter) (pre choices post : string) :
  argparse_format_help p who
  = pre +:+ "Commands:" +:+ newline +:+ "  {" +:+ choices +:+ "}" +:+
    newline +:+ post ->
  contains "{"%char pre = false ->
  contains "}"%char choices = false ->
  format_help argparse_format_help p who
  = Returned (pre +:+ "Commands:" +:+ newline +:+ post).
Proof.
  intros Htext Hpre Hch. unfold format_help. rewrite Htext.
  set (search := "Commands:" +:+ newline +:+ "  {").
  set (rest := choices +:+ "}" +:+ newline +:+ post).
  assert (Hstart :
    String.index 0 search
      (pre +:+ "Commands:" +:+ newline +:+ "  {" +:+ rest)
    = Some (String.length pre)).
  { apply index_first; [discriminate | exact (prefix_app search rest) |].
    intros a b -> Hb.
    destruct (String.prefix search _) eqn:E; [exfalso | reflexivity].
    rewrite contains_app in Hpre. apply orb_false_iff in Hpre as [_ Hb'].
    pose proof (prefix_get _ _ 12 "{"%char E eq_refl) as Hg.
    destruct (Nat.lt_ge_cases 12 (String.length b)) as [Hlt|Hge].
    - rewrite <- (String.append_correct1 b _ 12 Hlt) in Hg.
      apply get_contains in Hg. congruence.
    - assert (Hj : exists j, (j + String.length b = 12)%nat /\ (j < 12)%nat).
      { exists (12 - String.length b)%nat.
        destruct b; [congruence|]. simpl in *. lia. }
      destruct Hj as (j & Hj & Hlt). rewrite <- Hj in Hg.
      rewrite <- String.append_correct2 in Hg.
      do 12 (destruct j as [|j]; [discriminate Hg|]). lia. }
  rewrite Hstart.
  assert (Hend :
    String.index (String.length pre) ("}" +:+ newline)
      (pre +:+ "Commands:" +:+ newline +:+ "  {" +:+ rest)
    = Some (String.length pre + (13 + String.length choices))%nat).
  { rewrite index_shift.
    change ("Commands:" +:+ newline +:+ "  {" +:+ rest)
      with (search +:+ choices +:+ "}" +:+ newline +:+ post).
    rewrite <- (string_app_assoc search choices).
    rewrite index_first;
      [rewrite string_length_app; reflexivity | discriminate
      | exact (prefix_app ("}" +:+ newline) post) |].
    intros a b Hab Hb.
    assert (Hc : contains "}"%char b = false).
    { assert (H : contains "}"%char (search +:+ choices) = false).
      { rewrite contains_app, Hch. reflexivity. }
      rewrite Hab, contains_app in H. apply orb_false_iff in H. apply H. }
    destruct b as [|x b]; [congruence|]. simpl in Hc.
    apply orb_false_iff in Hc as [Hx _]. apply Ascii.eqb_neq in Hx.
    refine (prefix_first_char "}"%char newline x b _ _). congruence. }
  rewrite Hend. f_equal.
  change (String.length ("Commands:" +:+ newline)) with 10%nat.
  change (String.length ("}" +:+ newline)) with 2%nat.
  set (head := pre +:+ "Commands:" +:+ newline).
  set (middle := "  {" +:+ choices +:+ "}" +:+ newline).
  assert (Htxt : pre +:+ "Commands:" +:+ newline +:+ "  {" +:+ rest
                 = head +:+ middle +:+ post).
  { unfold head, middle, rest. rewrite !string_app_assoc. reflexivity. }
  rewrite Htxt.
  assert (Hh : (String.length pre + 10)%nat = String.length head).
  { unfold head. rewrite string_length_app. reflexivity. }
  assert (Hm : (String.length pre + (13 + String.length choices) + 2)%nat
               = String.length (head +:+ middle)).
  { unfold head, middle. rewrite !string_length_app. simpl. lia. }
  rewrite Hh, substring_pre, Hm.
  rewrite <- (string_app_assoc head middle post), substring_post.
  unfold head. rewrite !string_app_assoc. reflexivity.
Qed.

Lemma format_help_strips_choices_witness :
  format_help
    (fun _ _ => "usage: mach" +:+ newline +:+ "Commands:" +:+ newline +:+
                "  {" +:+ "build,flash" +:+ "}" +:+ newline +:+
                "    build  Build B2G." +:+ newline)
    (get_argument_parser loaded) TopLevel
  = Returned ("usage: mach" +:+ newline +:+ "Commands:" +:+ newline +:+
              "    build  Build B2G." +:+ newline).
Proof.
  rewrite <- string_app_assoc.
  apply (format_help_strips_choices _ (get_argument_parser loaded) TopLevel
           ("usage: mach" +:+ newline) "build,flash"
           ("    build  Build B2G." +:+ newline)); reflexivity.
Defined.

(** ** Instances *)


Lemma dispatch_without_handler_frame_witness :
  snd (dispatch exception_only frame_lines ["build"]
         (call_build posix (quiet 0) "/B2G") {[ "x" := PyNone ]} fresh)
  = raise IndexError "list index out of range" [at_line main_py 274 "_run"].
Proof.
  rewrite (dispatch_without_handler_frame exception_only frame_lines ["build"]
             (call_build posix (quiet 0) "/B2G") {[ "x" := PyNone ]}
             fresh fresh); [reflexivity|].
  left.
  exists {| exc_type := TypeError;
            exc_value := PyStr "unexpected or missing keyword argument" |}.
  split; [reflexivity | vm_compute; reflexivity].
Defined.

Lemma run_stream_without_encoding_witness :
  snd (run help_text usage_text "mach" exception_only frame_lines
         (method_of posix (quiet 0)) function_of "/B2G" ["build"]
         (Some (Plain {| s_id := 9; s_encoding := None |})) None None loaded)
  = Returned (PyInt 1).
Proof.
  rewrite (run_stream_without_encoding help_text usage_text "mach"
             exception_only frame_lines (method_of posix (quiet 0))
             function_of "/B2G" ["build"]
             (Some (Plain {| s_id := 9; s_encoding := None |})) None None
             loaded eq_refl).
  reflexivity.
Defined.

Lemma run_handler_outcomes_witness :
  snd (run help_text usage_text "mach" exception_only frame_lines
         (fun _ _ => Some (fun _ => interrupted)) function_of "/B2G"
         ["build"] None None None loaded)
  = Returned (PyInt 1).
Proof.
  edestruct (run_handler_outcomes help_text usage_text "mach" exception_only
               frame_lines (fun _ _ => Some (fun _ => interrupted))
               function_of "/B2G" ["build"] None None None loaded)
    as [_ H].
  - vm_compute. discriminate.
  - vm_compute. discriminate.
  - vm_compute. discriminate.
  - exists "build", []. split; [reflexivity | discriminate].
  - vm_compute. reflexivity.
  - rewrite (H _ _ eq_refl eq_refl). reflexivity.
Defined.

Lemma prepare_configures_logging_witness :
  exists w0 args verbose logfile log_interval,
    parse_args
      (@error help_text usage_text "mach" _ (get_argument_parser loaded))
      (print_help help_text (get_argument_parser loaded))
      (get_argument_parser loaded) flash_gaia loaded = (w0, Returned args) /\
    args !! "verbose" = Some verbose /\
    args !! "logfile" = Some logfile /\
    args !! "log_interval" = Some log_interval /\
    terminal_logging (add_terminal_logging INFO (PyBool false) loaded)
    = Some (if truthy verbose then DEBUG else INFO, log_interval) /\
    json_handlers (add_terminal_logging INFO (PyBool false) loaded)
    = json_handlers w0 ++ (if truthy logfile then [logfile] else []) /\
    console (add_terminal_logging INFO (PyBool false) loaded) = console w0 /\
    log (add_terminal_logging INFO (PyBool false) loaded) = log w0 /\
    class_handlers (add_terminal_logging INFO (PyBool false) loaded)
    = class_handlers w0.
Proof.
  apply (prepare_configures_logging help_text usage_text "mach"
           (method_of posix (quiet 0)) function_of "/B2G" flash_gaia loaded
           _ _ _ _
           (prepare_flash_gaia help_text usage_text "mach" posix (quiet 0)
              "/B2G" loaded eq_refl)).
Defined.

Lemma load_commands_fails_fast_witness :
  snd (load_commands listdir broken_load_source commands_dir fresh)
  = raise (Exception_ "SyntaxError") "invalid syntax"
      [at_line main_py 328 "_load_modules"; at_line flash_py 20 "<module>"].
Proof.
  erewrite (load_commands_fails_fast listdir broken_load_source commands_dir
              ["build.py"; "emulator.py"] [] "flash.py" fresh).
  - reflexivity.
  - vm_compute. reflexivity.
  - vm_compute. reflexivity.
  - vm_compute. reflexivity.
Defined.
